(** * Node Manager: discovery, registry and control

    A shallow embedding of [main.py] (classes [Worker] and [MainWindow])
    and the properties of its scanner, node list and command dispatch.

    Python values are modelled as follows: [int] is [Z], [str] is
    [string], a [list] is a Coq [list], the node dict
    [{'address': .., 'port': ..}] is the record [Node], and a raised
    exception is the [Raise] branch of [result].  The network, the name
    endpoint and the control endpoint are an explicit [Network] record
    of oracles; the process-wide state of the [socket] module and the
    window are passed explicitly. *)

From Stdlib Require Import List Bool Arith ZArith Lia String Ascii.
From Stdlib Require Import Permutation Sorted DecimalString DecimalZ.
Import ListNotations.
Local Open Scope string_scope.
Local Open Scope Z_scope.
Local Open Scope list_scope.

(** ** Python preliminaries *)

Module Py.

(** The [OSError] subclasses a TCP connect can end in. *)
Inductive OSErrorKind : Type :=
| ConnectionRefused
| TimedOut
| HostUnreachable
| NetworkUnreachable
| NameResolution.

(** The exception classes that occur in the program. *)
Inductive PyExc : Type :=
| OSError (k : OSErrorKind)
| ValueError
| OverflowError
| TypeError
| RuntimeError.

(** A computation either returns or raises. *)
Inductive result (A : Type) : Type :=
| Ok (a : A)
| Raise (e : PyExc).
Arguments Ok {A} a.
Arguments Raise {A} e.

Definition bind {A B : Type} (r : result A) (k : A -> result B) : result B :=
  match r with
  | Ok a => k a
  | Raise e => Raise e
  end.

(** [range(a, b)] *)
Definition range (a b : Z) : list Z :=
  map (fun k => a + Z.of_nat k) (seq 0 (Z.to_nat (b - a))).

(** [str(i)] for an [int] *)
Definition str (i : Z) : string := NilZero.string_of_int (Z.to_int i).

(** [s.split(sep)] for a one-character separator *)
Fixpoint split (sep : ascii) (s : string) : list string :=
  match s with
  | EmptyString => [EmptyString]
  | String c s' =>
      if Ascii.eqb c sep then EmptyString :: split sep s'
      else match split sep s' with
           | [] => [String c EmptyString]
           | w :: ws => String c w :: ws
           end
  end.

(** [sep.join(l)] *)
Fixpoint join (sep : string) (l : list string) : string :=
  match l with
  | [] => EmptyString
  | [x] => x
  | x :: rest => (x ++ sep ++ join sep rest)%string
  end.

(** [l.remove(x)]: drop the first element equal to [x]; [ValueError]
    when there is none. *)
Fixpoint list_remove {A : Type} (eqb : A -> A -> bool) (x : A) (l : list A)
  : result (list A) :=
  match l with
  | [] => Raise ValueError
  | y :: l' =>
      if eqb y x then Ok l'
      else bind (list_remove eqb x l') (fun r => Ok (y :: r))
  end.

(** [x in l] *)
Definition contains {A : Type} (eqb : A -> A -> bool) (x : A) (l : list A) : bool :=
  existsb (fun y => eqb y x) l.

End Py.
Import Py.

(** ** Data *)

(** The dict built by [checkIP]: [{'address': address, 'port': port}]. *)
Record Node : Type := mkNode {
  n_address : string;
  n_port : Z
}.

(** Dict equality, as used by [node not in self.nodes]. *)
Definition node_eqb (a b : Node) : bool :=
  String.eqb (n_address a) (n_address b) && Z.eqb (n_port a) (n_port b).

(** What [checkIP] returns: [False] or the node dict. *)
Inductive ProbeValue : Type :=
| PyFalse
| PyDict (n : Node).

(** Truth value of a [ProbeValue] ([if task.result():]); the dict has
    two keys, so it is true. *)
Definition truthy (v : ProbeValue) : bool :=
  match v with
  | PyFalse => false
  | PyDict _ => true
  end.

(** The process-wide state of the [socket] module. *)
Record SocketModule : Type := mkSocketModule {
  defaulttimeout : option Z
}.

(** The world outside the process. *)
Record Network : Type := mkNetwork {
  (** does the IDNA codec encode the host string (asked for a host
      that is not plain ASCII) *)
  idna_encodes : string -> bool;
  (** does the host string resolve to an IPv4 address *)
  resolves : string -> bool;
  (** outcome of a TCP connect to (address, port) on a socket with the
      given timeout: [None] when the connection is established *)
  tcp_connect : string -> Z -> option Z -> option OSErrorKind;
  (** local endpoint of a UDP socket connected towards 10.0.0.0 *)
  getsockname : result string;
  (** [requests.get(url, timeout=1).json()]: [Some name], or [None] for
      a [RequestException] *)
  http_get_json : string -> option string;
  (** [requests.post(url, json=command, timeout=5)]: [true] when the
      request completes, [false] for a [RequestException] *)
  http_post : string -> string -> bool
}.

(** ** Worker *)

Module Worker.

Definition scanPort : Z := 5000.

(** The socket module keeps a timeout as a number of nanoseconds in a
    signed 64-bit integer: a number of seconds of 9223372037 or more,
    in absolute value, does not fit. *)
Definition timeout_limit : Z := 9223372037.

(** [socket.setdefaulttimeout(timeout)]: a timeout that does not fit is
    refused with [OverflowError], a negative one with [ValueError]; the
    default is then left as it is. *)
Definition setdefaulttimeout (timeout : Z) (g : SocketModule)
  : result unit * SocketModule :=
  if (timeout <=? - timeout_limit) || (timeout_limit <=? timeout)
  then (Raise OverflowError, g)
  else if timeout <? 0 then (Raise ValueError, g)
  else (Ok tt, mkSocketModule (Some timeout)).

(** The characters of a host string as the socket module sees them. *)
Definition is_ascii (s : string) : bool :=
  forallb (fun c => Nat.ltb (nat_of_ascii c) 128) (list_ascii_of_string s).

Definition has_nul (s : string) : bool :=
  existsb (fun c => Nat.eqb (nat_of_ascii c) 0) (list_ascii_of_string s).

(** The conversion of the host of an address pair: a host that is not
    plain ASCII goes through the IDNA codec, and the result must hold
    no NUL character. *)
Definition host_converts (net : Network) (host : string) : bool :=
  (is_ascii host || idna_encodes net host) && negb (has_nul host).

(** The conversion of the port of an address pair to a C [int]. *)
Definition fits_C_int (i : Z) : bool :=
  (-2147483648 <=? i) && (i <=? 2147483647).

(** [sock.connect((address, port))] on a socket whose timeout is
    [sock_timeout]: the pair is converted ([TypeError] for the host,
    [OverflowError] for the port), the host is resolved, the port is
    checked against 0..65535 ([OverflowError]), and the connection is
    attempted. *)
Definition sock_connect (net : Network) (sock_timeout : option Z)
    (address : string) (port : Z) : result unit :=
  if negb (host_converts net address) then Raise TypeError
  else if negb (fits_C_int port) then Raise OverflowError
  else if negb (resolves net address) then Raise (OSError NameResolution)
  else if (port <? 0) || (65535 <? port) then Raise OverflowError
  else match tcp_connect net address port sock_timeout with
       | None => Ok tt
       | Some k => Raise (OSError k)
       end.

(** [except OSError: return False]; any other exception propagates. *)
Definition except_OSError (r : result ProbeValue) : result ProbeValue :=
  match r with
  | Raise (OSError _) => Ok PyFalse
  | _ => r
  end.

(** [checkIP(address, port, timeout)] *)
Definition checkIP (net : Network) (address : string) (port timeout : Z)
    (g : SocketModule) : result ProbeValue * SocketModule :=
  match setdefaulttimeout timeout g with
  | (Raise e, g1) => (except_OSError (Raise e), g1)
  | (Ok _, g1) =>
      (* sock = socket.socket(AF_INET, SOCK_STREAM): the new socket
         takes the module's default timeout *)
      let sock_timeout := defaulttimeout g1 in
      (except_OSError
         (bind (sock_connect net sock_timeout address port)
               (fun _ => Ok (PyDict (mkNode address port)))),
       g1)
  end.

(** [localIP()] *)
Definition localIP (net : Network) : result string := getsockname net.

(** The addresses submitted by [scanLAN]:
    [f'{prefix}.{i}' for i in range(1, 255)]. *)
Definition scan_targets (prefix : string) : list string :=
  map (fun i => prefix ++ "." ++ str i)%string (range 1 255).

(** Run the submitted tasks; each one is a call of [checkIP]. *)
Fixpoint run_tasks (net : Network) (port timeout : Z) (targets : list string)
    (g : SocketModule) : list (result ProbeValue) * SocketModule :=
  match targets with
  | [] => ([], g)
  | a :: rest =>
      let '(r, g1) := checkIP net a port timeout g in
      let '(rs, g2) := run_tasks net port timeout rest g1 in
      (r :: rs, g2)
  end.

(** The loop over [as_completed(tasks)]:
    [if task.result(): result.append(task.result())];
    [task.result()] re-raises what the task raised. *)
Fixpoint collect (done : list (result ProbeValue)) (acc : list Node)
  : result (list Node) :=
  match done with
  | [] => Ok acc
  | Raise e :: _ => Raise e
  | Ok v :: rest =>
      match v with
      | PyDict n => collect rest (acc ++ [n])
      | PyFalse => collect rest acc
      end
  end.

(** [scanLAN(port, prefix, timeout)].  [as_completed] is the order in
    which the scheduler lets the futures complete. *)
Definition scanLAN (net : Network)
    (as_completed : list (result ProbeValue) -> list (result ProbeValue))
    (port : Z) (prefix : string) (timeout : Z) (g : SocketModule)
  : result (list Node) * SocketModule :=
  let '(tasks, g1) := run_tasks net port timeout (scan_targets prefix) g in
  (collect (as_completed tasks) [], g1).

(** [scanNodes()]: the value emitted on [activeNodes], [None] standing
    for Python's [None]. *)
Definition scanNodes (net : Network)
    (as_completed : list (result ProbeValue) -> list (result ProbeValue))
    (g : SocketModule) : result (option (list Node)) * SocketModule :=
  match localIP net with
  | Raise e => (Raise e, g)
  | Ok ip =>
      let networkPrefix := join "." (firstn 3 (split "." ip)) in
      match scanLAN net as_completed scanPort networkPrefix 1 g with
      | (Raise e, g1) => (Raise e, g1)
      | (Ok nodes, g1) =>
          match nodes with
          | [] => (Ok None, g1)
          | _ :: _ => (Ok (Some nodes), g1)
          end
      end
  end.

End Worker.

(** ** Iteration

    A Python [for] over a list that the body does not change is a fold
    over it; over a list the body may change it is the iterator
    protocol: the iterator holds an index, and each step reads the item
    at that index in the list as it is then, stopping when the index is
    past the end. *)

Section Loops.

Context {S A : Type}.
Variable body : A -> S -> S * option PyExc.

(** [for x in l: body] over a list that nothing changes (an argument,
    or a copy such as [l[:]]). *)
Fixpoint for_each (l : list A) (st : S) : S * option PyExc :=
  match l with
  | [] => (st, None)
  | x :: rest =>
      match body x st with
      | (st1, Some e) => (st1, Some e)
      | (st1, None) => for_each rest st1
      end
  end.

(** [for x in self.items: body] where [self.items] is read from the
    state at every step.  [None] when the fuel does not reach the end
    of the loop. *)
Variable items : S -> list A.

Fixpoint for_each_live (fuel i : nat) (st : S) : option (S * option PyExc) :=
  match nth_error (items st) i with
  | None => Some (st, None)
  | Some x =>
      match fuel with
      | O => None
      | Datatypes.S fuel' =>
          match body x st with
          | (st1, Some e) => Some (st1, Some e)
          | (st1, None) => for_each_live fuel' (Datatypes.S i) st1
          end
      end
  end.

End Loops.

(** ** MainWindow *)

(** A [QGroupBox] made by [makeGroupBox]: the widget's identity, its
    two properties, its checkbox, its name label and whether it is
    disabled. *)
Record GroupBox : Type := mkGroupBox {
  gid : nat;
  address : string;
  port : Z;
  checked : bool;
  nameLabel : string;
  disabled : bool
}.

(** The window: [self.nodes], [self.groupBoxes], the disabled state of
    the toolbar and of the window, the number of group boxes made so
    far (the identity of the next one), the widgets on which
    [deleteLater()] was called and that Qt deletes once control is back
    in the event loop, and the widgets Qt has deleted. *)
Record MainWindow : Type := mkMainWindow {
  nodes : list Node;
  groupBoxes : list GroupBox;
  toolbar_disabled : bool;
  window_disabled : bool;
  made : nat;
  pending_delete : list nat;
  deleted : list nat
}.

Module MainWindow.

(** The class attributes [nodes = []] and [groupBoxes = []]. *)
Definition init : MainWindow := mkMainWindow [] [] false false 0 [] [].

Definition with_nodes (l : list Node) (w : MainWindow) : MainWindow :=
  mkMainWindow l (groupBoxes w) (toolbar_disabled w) (window_disabled w) (made w)
               (pending_delete w) (deleted w).

Definition with_groupBoxes (l : list GroupBox) (w : MainWindow) : MainWindow :=
  mkMainWindow (nodes w) l (toolbar_disabled w) (window_disabled w) (made w)
               (pending_delete w) (deleted w).

(** [self.toolbar.setDisabled(b)] *)
Definition toolbar_setDisabled (b : bool) (w : MainWindow) : MainWindow :=
  mkMainWindow (nodes w) (groupBoxes w) b (window_disabled w) (made w)
               (pending_delete w) (deleted w).

(** [self.setDisabled(b)] *)
Definition setDisabled (b : bool) (w : MainWindow) : MainWindow :=
  mkMainWindow (nodes w) (groupBoxes w) (toolbar_disabled w) b (made w)
               (pending_delete w) (deleted w).

(** Has Qt deleted the widget: a method call on a deleted widget raises
    [RuntimeError]. *)
Definition is_deleted (g : GroupBox) (w : MainWindow) : bool :=
  existsb (Nat.eqb (gid g)) (deleted w).

(** [g.deleteLater()]: the widget is deleted when control is back in
    the event loop. *)
Definition deleteLater (g : GroupBox) (w : MainWindow) : MainWindow :=
  mkMainWindow (nodes w) (groupBoxes w) (toolbar_disabled w) (window_disabled w)
               (made w) (gid g :: pending_delete w) (deleted w).

(** Control is back in the event loop: Qt deletes the widgets that
    await it. *)
Definition event_loop (w : MainWindow) : MainWindow :=
  mkMainWindow (nodes w) (groupBoxes w) (toolbar_disabled w) (window_disabled w)
               (made w) [] (pending_delete w ++ deleted w).

(** Widgets are compared by identity. *)
Definition same_widget (a b : GroupBox) : bool := Nat.eqb (gid a) (gid b).

Definition box_setDisabled (b : bool) (g : GroupBox) : GroupBox :=
  mkGroupBox (gid g) (address g) (port g) (checked g) (nameLabel g) b.

Definition box_setChecked (b : bool) (g : GroupBox) : GroupBox :=
  mkGroupBox (gid g) (address g) (port g) b (nameLabel g) (disabled g).

Definition box_setText (name : string) (g : GroupBox) : GroupBox :=
  mkGroupBox (gid g) (address g) (port g) (checked g) name (disabled g).

(** A method call on the widget [g]: the widget of that identity in
    the list is updated. *)
Definition on_widget (f : GroupBox -> GroupBox) (g : GroupBox) (w : MainWindow)
  : MainWindow :=
  with_groupBoxes
    (map (fun x => if same_widget x g then f x else x) (groupBoxes w)) w.

(** [makeGroupBox] on the keys of [node]: a new widget, unchecked,
    enabled, its name label showing an em dash. *)
Definition makeGroupBox (node : Node) (w : MainWindow) : GroupBox * MainWindow :=
  (mkGroupBox (made w) (n_address node) (n_port node) false "—" false,
   mkMainWindow (nodes w) (groupBoxes w) (toolbar_disabled w)
                (window_disabled w) (Datatypes.S (made w))
                (pending_delete w) (deleted w)).

(** [addGroupBox(node)], the slot of [updateListSignal]. *)
Definition addGroupBox (node : Node) (w : MainWindow) : MainWindow :=
  let '(group, w1) := makeGroupBox node w in
  with_groupBoxes (groupBoxes w1 ++ [group]) w1.

(** The body of the loop of [addNodes]; the second component of the
    state lists the nodes emitted on [updateListSignal]. *)
Definition addNodes_body (node : Node) (st : MainWindow * list Node)
  : (MainWindow * list Node) * option PyExc :=
  let '(w, emitted) := st in
  if negb (contains node_eqb node (nodes w)) then
    let w1 := with_nodes (nodes w ++ [node]) w in
    ((addGroupBox node w1, emitted ++ [node]), None)
  else ((w, emitted), None).

(** [addNodes(nodes)], the slot of [activeNodes].  The argument is
    what was emitted: a list, or [None].  Iterating over [None] is a
    [TypeError]. *)
Definition addNodes (arg : option (list Node)) (w : MainWindow)
  : (MainWindow * list Node) * option PyExc :=
  match arg with
  | None => ((w, []), Some TypeError)
  | Some l =>
      match for_each addNodes_body l (w, []) with
      | (st, Some e) => (st, Some e)
      | ((w1, emitted), None) => ((setDisabled false w1, emitted), None)
      end
  end.

(** The loop of [removeGroupBox] over [self.nodes]: the first node
    with the address is removed with [list.remove], then [break]. *)
Fixpoint remove_node (addr : string) (all rest : list Node) : result (list Node) :=
  match rest with
  | [] => Ok all
  | node :: rest' =>
      if String.eqb (n_address node) addr then list_remove node_eqb node all
      else remove_node addr all rest'
  end.

(** [removeGroupBox(groupBox)].  [groupBox.property('address')] raises
    [RuntimeError] on a widget that Qt has deleted; [list.remove]
    raises [ValueError] for a widget that is not in the list. *)
Definition removeGroupBox (groupBox : GroupBox) (w : MainWindow)
  : MainWindow * option PyExc :=
  if is_deleted groupBox w then (w, Some RuntimeError)
  else
    let addr := address groupBox in
    match list_remove same_widget groupBox (groupBoxes w) with
    | Raise e => (w, Some e)
    | Ok boxes =>
        let w1 := deleteLater groupBox (with_groupBoxes boxes w) in
        match remove_node addr (nodes w1) (nodes w1) with
        | Raise e => (w1, Some e)
        | Ok l => (with_nodes l w1, None)
        end
    end.

(** [disableGroupBoxes(state)] *)
Definition disableGroupBoxes (state : bool) (w : MainWindow) : MainWindow :=
  with_groupBoxes (map (box_setDisabled state) (groupBoxes w)) w.

Definition control_url (group : GroupBox) : string :=
  ("http://" ++ address group ++ ":" ++ str (port group) ++ "/machine-control")%string.

(** The body of the loop of [machineControl]; the second component of
    the state lists the URLs posted to. *)
Definition machineControl_body (net : Network) (command : string)
    (group : GroupBox) (st : MainWindow * list string)
  : (MainWindow * list string) * option PyExc :=
  let '(w, posted) := st in
  let api := control_url group in
  if checked group then
    let w1 := on_widget (box_setDisabled true) group w in
    if http_post net api command then
      match removeGroupBox group w1 with
      | (w2, Some e) => ((w2, posted ++ [api]), Some e)
      | (w2, None) => ((w2, posted ++ [api]), None)
      end
    else ((w1, posted ++ [api]), None)
  else ((w, posted), None).

(** [machineControl(command)].  The loop runs over [self.groupBoxes]
    itself. *)
Definition machineControl (net : Network) (command : string) (w : MainWindow)
  : option ((MainWindow * list string) * option PyExc) :=
  if Nat.eqb (List.length (groupBoxes w)) 0 then Some ((w, []), None)
  else
    let w1 := disableGroupBoxes true (toolbar_setDisabled true w) in
    match for_each_live (machineControl_body net command)
                        (fun st => groupBoxes (fst st))
                        (List.length (groupBoxes w1)) 0 (w1, []) with
    | None => None
    | Some (st, Some e) => Some (st, Some e)
    | Some ((w2, posted), None) =>
        Some ((toolbar_setDisabled false (disableGroupBoxes false w2), posted), None)
    end.

(** [toggleSelection()] with the action's checked state. *)
Definition toggleSelection (state : bool) (w : MainWindow) : MainWindow :=
  with_groupBoxes (map (box_setChecked state) (groupBoxes w)) w.

(** [updateNodeName(data)], the slot of [updateNodeNameSignal]:
    [data['label']] is the name label of one group box;
    [except RuntimeError: pass] when Qt has deleted it. *)
Definition updateNodeName (group : GroupBox) (name : string) (w : MainWindow)
  : MainWindow :=
  if is_deleted group w then w
  else on_widget (box_setText name) group w.

Definition name_url (group : GroupBox) : string :=
  ("http://" ++ address group ++ ":" ++ str (port group) ++ "/node-details/name")%string.

(** The body of the inner loop of [checkNodeName]:
    [except RuntimeError: continue] when Qt has deleted the group box,
    [except RequestException: pass] when the request fails. *)
Definition checkNodeName_body (net : Network) (group : GroupBox) (w : MainWindow)
  : MainWindow * option PyExc :=
  if is_deleted group w then (w, None)
  else
    let api := name_url group in
    match http_get_json net api with
    | Some name => (updateNodeName group name w, None)
    | None => (w, None)
    end.

(** One pass of the [while True] loop of [checkNodeName], after the
    sleep. *)
Definition checkNodeName_cycle (net : Network) (w : MainWindow)
  : option (MainWindow * option PyExc) :=
  for_each_live (checkNodeName_body net) groupBoxes
                (List.length (groupBoxes w)) 0 w.

(** [clearList()]: the loop runs over the copy [self.groupBoxes[:]]. *)
Definition clearList (w : MainWindow) : MainWindow * option PyExc :=
  let w1 := toolbar_setDisabled true w in
  match for_each removeGroupBox (groupBoxes w1) w1 with
  | (w2, Some e) => (w2, Some e)
  | (w2, None) => (toolbar_setDisabled false w2, None)
  end.

(** [rebootHandler()] and [shutdownHandler()]: each starts a thread
    that runs [machineControl] with its command. *)
Definition rebootHandler (net : Network) (w : MainWindow)
  : option ((MainWindow * list string) * option PyExc) :=
  machineControl net "reboot" w.

Definition shutdownHandler (net : Network) (w : MainWindow)
  : option ((MainWindow * list string) * option PyExc) :=
  machineControl net "shutdown" w.

(** [scanHandler()] *)
Definition scanHandler (w : MainWindow) : MainWindow := setDisabled true w.

End MainWindow.

(** ** Vocabulary of the properties *)

Import MainWindow.

(** An established connection: the host resolves and the connect on a
    socket with that timeout is accepted. *)
Definition connects (net : Network) (port timeout : Z) (addr : string) : bool :=
  resolves net addr &&
  match tcp_connect net addr port (Some timeout) with
  | None => true
  | Some _ => false
  end.

(** The arguments the [socket] module accepts: a TCP port, a timeout
    that is not negative and fits, a host that converts. *)
Definition valid_port (port : Z) : Prop := 0 <= port <= 65535.
Definition valid_timeout (timeout : Z) : Prop :=
  0 <= timeout < Worker.timeout_limit.
Definition valid_host (net : Network) (host : string) : Prop :=
  Worker.host_converts net host = true.

(** Plain text: ASCII characters, none of them NUL.  A host in plain
    text converts on every network. *)
Definition plain_char (c : ascii) : bool :=
  Nat.ltb 0 (nat_of_ascii c) && Nat.ltb (nat_of_ascii c) 128.
Definition plain_text (s : string) : bool :=
  forallb plain_char (list_ascii_of_string s).

(** What [checkIP] returns once the timeout is set: the outcome of the
    connect, with every [OSError] turned into [False]. *)
Definition probe_outcome (net : Network) (port timeout : Z) (addr : string)
  : result ProbeValue :=
  Worker.except_OSError
    (bind (Worker.sock_connect net (Some timeout) addr port)
          (fun _ => Ok (PyDict (mkNode addr port)))).

(** What one probe reports, as [scanLAN] reads it. *)
Definition probe_reports (net : Network) (port timeout : Z) (addr : string) : bool :=
  match fst (Worker.checkIP net addr port timeout (mkSocketModule None)) with
  | Ok v => truthy v
  | Raise _ => false
  end.

(** The node of a group box: its two properties. *)
Definition box_node (g : GroupBox) : Node := mkNode (address g) (port g).

(** The nodes of [l] that a merge into [known] adds, in arrival order. *)
Fixpoint newly (known l : list Node) : list Node :=
  match l with
  | [] => []
  | n :: rest =>
      if contains node_eqb n known then newly known rest
      else n :: newly (known ++ [n]) rest
  end.

(** [l] without its first node at address [addr]. *)
Fixpoint remove_first_addr (addr : string) (l : list Node) : list Node :=
  match l with
  | [] => []
  | n :: rest =>
      if String.eqb (n_address n) addr then rest
      else n :: remove_first_addr addr rest
  end.

(** The group boxes made for the nodes [l], the first one being the
    [k]-th made by the window. *)
Fixpoint make_boxes (k : nat) (l : list Node) : list GroupBox :=
  match l with
  | [] => []
  | n :: rest =>
      mkGroupBox k (n_address n) (n_port n) false "—" false
      :: make_boxes (Datatypes.S k) rest
  end.

(** Is a widget of this identity in the list. *)
Definition listed (g : GroupBox) (l : list GroupBox) : bool :=
  existsb (fun x => same_widget x g) l.

(** What one refresh does to one group box. *)
Definition refreshed (net : Network) (g : GroupBox) : GroupBox :=
  match http_get_json net (name_url g) with
  | Some name => box_setText name g
  | None => g
  end.

(** The invariant of the window: group boxes are listed in the order
    they were made, every listed widget was made by this window,
    [self.nodes] holds one entry per listed group box, for the same
    addresses, and the widgets that are deleted or about to be were
    made by this window and are not listed. *)
Definition registry_wf (w : MainWindow) : Prop :=
  StronglySorted lt (map gid (groupBoxes w)) /\
  Forall (fun g => (gid g < made w)%nat) (groupBoxes w) /\
  Permutation (map n_address (nodes w)) (map address (groupBoxes w)) /\
  Forall (fun k => (k < made w)%nat) (pending_delete w ++ deleted w) /\
  Forall (fun g => ~ In (gid g) (pending_delete w ++ deleted w)) (groupBoxes w).

(** A reference [g] denotes a widget of the window: the listed widget
    of its identity, if any, has its address. *)
Definition genuine (g : GroupBox) (w : MainWindow) : Prop :=
  forall x, In x (groupBoxes w) -> gid x = gid g -> address x = address g.

(** The events the window reacts to.  A widget is named by its
    identity; [widget k w] is the listed group box of that identity,
    or a reference to a widget that is no longer listed. *)
Inductive Event : Type :=
| EvActiveNodes (arg : option (list Node))
| EvRemoveClicked (k : nat)
| EvCheckboxClicked (k : nat) (state : bool)
| EvToggleSelection (state : bool)
| EvMachineControl (net : Network) (command : string)
| EvCheckNodeName (net : Network)
| EvClearList
| EvScan.

Definition widget (k : nat) (w : MainWindow) : GroupBox :=
  match find (fun x => Nat.eqb (gid x) k) (groupBoxes w) with
  | Some g => g
  | None => mkGroupBox k "" 0 false "" false
  end.

(** [activeNodes = Signal(list)], connected to [addNodes]: the argument
    of an emission travels as a [QVariantList], and a value that is no
    sequence, such as [None], reaches the slot as the empty list. *)
Definition activeNodes_delivers (emitted : option (list Node))
  : option (list Node) :=
  match emitted with
  | Some l => Some l
  | None => Some []
  end.

(** The window after the handler of one event; an exception raised by
    a handler ends the handler and leaves the window as it is then. *)
Definition handle (w : MainWindow) (ev : Event) : MainWindow :=
  match ev with
  | EvActiveNodes arg => fst (fst (addNodes (activeNodes_delivers arg) w))
  | EvRemoveClicked k => fst (removeGroupBox (widget k w) w)
  | EvCheckboxClicked k state => on_widget (box_setChecked state) (widget k w) w
  | EvToggleSelection state => toggleSelection state w
  | EvMachineControl net command =>
      match machineControl net command w with
      | Some (st, _) => fst st
      | None => w
      end
  | EvCheckNodeName net =>
      match checkNodeName_cycle net w with
      | Some (w1, _) => w1
      | None => w
      end
  | EvClearList => fst (clearList w)
  | EvScan => scanHandler w
  end.

(** The window after one event, control being back in the event loop. *)
Definition react (w : MainWindow) (ev : Event) : MainWindow :=
  event_loop (handle w ev).

(** The window after a history of events, from the start. *)
Definition run (history : list Event) : MainWindow :=
  fold_left react history init.

(** The nodes that the loop of [scanLAN] appends for one future. *)
Definition appended (r : result ProbeValue) : list Node :=
  match r with
  | Ok (PyDict n) => [n]
  | _ => []
  end.

(** What the loop of [machineControl] does with the list it runs over:
    the group boxes it keeps, those it removes and the URLs it posts
    to, each in order.  After a removal the list has moved up by one
    under the iterator, so the box that followed the removed one is
    kept without being looked at. *)
Fixpoint dispatch_plan (net : Network) (command : string) (l : list GroupBox)
  : (list GroupBox * list GroupBox) * list string :=
  match l with
  | [] => (([], []), [])
  | g :: rest =>
      if checked g then
        if http_post net (control_url g) command then
          match rest with
          | [] => (([], [g]), [control_url g])
          | h :: rest' =>
              let '((k, r), p) := dispatch_plan net command rest' in
              ((h :: k, g :: r), control_url g :: p)
          end
        else
          let '((k, r), p) := dispatch_plan net command rest in
          ((g :: k, r), control_url g :: p)
      else
        let '((k, r), p) := dispatch_plan net command rest in
        ((g :: k, r), p)
  end.

(** The elements at the positions 0, 2, 4, ... of a list. *)
Fixpoint every_other {A : Type} (l : list A) : list A :=
  match l with
  | [] => []
  | x :: rest =>
      x :: match rest with
           | [] => []
           | _ :: rest' => every_other rest'
           end
  end.

(** A selected box whose POST completes. *)
Definition accepts (net : Network) (command : string) (g : GroupBox) : bool :=
  checked g && http_post net (control_url g) command.

(** No selected box directly follows a box that accepts the command. *)
Fixpoint spaced (net : Network) (command : string) (l : list GroupBox) : Prop :=
  match l with
  | [] => True
  | g :: rest =>
      match rest with
      | [] => True
      | h :: _ => accepts net command g = true -> checked h = false
      end /\ spaced net command rest
  end.

(** The widgets awaiting deletion after [deleteLater()] on the group
    boxes [removed], one after the other. *)
Definition queued (removed : list GroupBox) (pending : list nat) : list nat :=
  fold_left (fun p g => gid g :: p) removed pending.

(** The node list after the removal of the group boxes [removed], one
    after the other. *)
Definition forget (removed : list GroupBox) (l : list Node) : list Node :=
  fold_left (fun ns g => remove_first_addr (address g) ns) removed l.

(** Every list of nodes merged in the history carries the port [p]. *)
Definition single_port (p : Z) (history : list Event) : Prop :=
  forall l, In (EvActiveNodes (Some l)) history ->
            Forall (fun n => n_port n = p) l.

(** The node list mirrors the group boxes: same nodes, same order, one
    entry per address, all on the port [p]. *)
Definition mirrored (p : Z) (w : MainWindow) : Prop :=
  nodes w = map box_node (groupBoxes w) /\
  NoDup (map address (groupBoxes w)) /\
  Forall (fun n => n_port n = p) (nodes w).

(** A component of a dotted address: plain text with no dot in it. *)
Definition dotless (s : string) : Prop :=
  forall c, In c (list_ascii_of_string s) ->
            c <> "."%char /\ plain_char c = true.

(** ** Example inputs *)

(** A network on which 192.168.1.10 and 192.168.1.20 accept
    connections, every other host refuses, the name endpoint of
    10.0.0.5 answers "server-1" and only 10.0.0.5 takes commands. *)
Definition lan : Network :=
  mkNetwork
    (fun _ => false)
    (fun _ => true)
    (fun addr _ _ =>
       if String.eqb addr "192.168.1.10" || String.eqb addr "192.168.1.20"
       then None else Some ConnectionRefused)
    (Ok "192.168.1.17")
    (fun url =>
       if String.eqb url "http://10.0.0.5:5000/node-details/name"
       then Some "server-1" else None)
    (fun url _ => String.eqb url "http://10.0.0.5:5000/machine-control").

(** A network on which no host answers and every request is accepted. *)
Definition quiet_lan : Network :=
  mkNetwork (fun _ => false) (fun _ => true) (fun _ _ _ => Some TimedOut)
            (Ok "192.168.1.17")
            (fun _ => Some "node") (fun _ _ => true).

Definition nodeA : Node := mkNode "10.0.0.5" 5000.
Definition nodeB : Node := mkNode "10.0.0.2" 5000.
Definition nodeC : Node := mkNode "10.0.0.9" 5000.

(** The three nodes merged in that order, then A and C selected. *)
Definition three_nodes : MainWindow :=
  run [EvActiveNodes (Some [nodeA; nodeB; nodeC]);
       EvCheckboxClicked 0 true; EvCheckboxClicked 2 true].

(** Two nodes merged, none selected. *)
Definition two_nodes : MainWindow :=
  run [EvActiveNodes (Some [nodeA; nodeB])].

(** Two nodes merged, both selected. *)
Definition two_selected : MainWindow :=
  run [EvActiveNodes (Some [nodeA; nodeB]); EvToggleSelection true].

(** ** Facts about the Python preliminaries *)

Lemma str_inj (i j : Z) : str i = str j -> i = j.
Proof.
  unfold str. intros H.
  assert (nonnil : forall z, Z.to_int z <> Decimal.Pos Decimal.Nil /\
                             Z.to_int z <> Decimal.Neg Decimal.Nil).
  { intros [|p|p]; simpl; split; try discriminate;
      intros E; injection E as E; now apply DecimalPos.Unsigned.to_uint_nonnil in E. }
  assert (E : Some (Z.to_int i) = Some (Z.to_int j)).
  { rewrite <- (NilZero.isi (Z.to_int i)), <- (NilZero.isi (Z.to_int j));
      try apply nonnil.
    now rewrite H. }
  injection E as E.
  rewrite <- (DecimalZ.of_to i), <- (DecimalZ.of_to j). now rewrite E.
Qed.

Lemma append_inj_r (p s t : string) : (p ++ s = p ++ t)%string -> s = t.
Proof.
  induction p as [|c p IH]; simpl; intros H.
  - exact H.
  - injection H as H. now apply IH.
Qed.

Lemma range_seq (a b : Z) :
  range a b = map (fun k => a + Z.of_nat k) (seq 0 (Z.to_nat (b - a))).
Proof. reflexivity. Qed.

Lemma In_range (a b i : Z) : In i (range a b) <-> a <= i < b.
Proof.
  unfold range. rewrite in_map_iff. split.
  - intros (k & <- & Hk). apply in_seq in Hk. lia.
  - intros H. exists (Z.to_nat (i - a)). split; [lia|].
    apply in_seq. lia.
Qed.

Lemma NoDup_range (a b : Z) : NoDup (range a b).
Proof.
  unfold range. apply Finite.Injective_map_NoDup_in.
  - intros x y _ _ H. lia.
  - apply seq_NoDup.
Qed.

(** ** The prober *)

Lemma plain_chars (l : list ascii) :
  forallb plain_char l = true ->
  forallb (fun c => Nat.ltb (nat_of_ascii c) 128) l = true /\
  existsb (fun c => Nat.eqb (nat_of_ascii c) 0) l = false.
Proof.
  induction l as [|c l IH]; simpl; [auto|].
  intros H. apply andb_true_iff in H as [Hc Hl]. destruct (IH Hl) as [H1 H2].
  unfold plain_char in Hc. apply andb_true_iff in Hc as [Hpos Hlt].
  rewrite Hlt, H1, H2. split; [reflexivity|].
  apply Nat.ltb_lt in Hpos. rewrite orb_false_r. apply Nat.eqb_neq. lia.
Qed.

(** A host in plain text converts, whatever the IDNA codec does. *)
Lemma plain_text_converts (net : Network) (host : string) :
  plain_text host = true -> valid_host net host.
Proof.
  intros H. destruct (plain_chars _ H) as [H1 H2].
  unfold valid_host, Worker.host_converts, Worker.is_ascii, Worker.has_nul.
  now rewrite H1, H2.
Qed.

Lemma list_ascii_app (s t : string) :
  list_ascii_of_string (s ++ t)
  = list_ascii_of_string s ++ list_ascii_of_string t.
Proof. induction s as [|c s IH]; simpl; [reflexivity|]. now rewrite IH. Qed.

Lemma plain_text_app (s t : string) :
  plain_text (s ++ t) = plain_text s && plain_text t.
Proof. unfold plain_text. now rewrite list_ascii_app, forallb_app. Qed.

Lemma plain_text_uint (d : Decimal.uint) :
  plain_text (NilEmpty.string_of_uint d) = true.
Proof. induction d; simpl; auto. Qed.

(** The decimal text of an [int] is plain text. *)
Lemma plain_text_str (i : Z) : plain_text (str i) = true.
Proof.
  assert (H : forall d, plain_text (NilZero.string_of_uint d) = true).
  { intros d. unfold NilZero.string_of_uint.
    destruct d; try reflexivity; apply plain_text_uint. }
  unfold str, NilZero.string_of_int.
  destruct (Z.to_int i) as [d|d]; [apply H|].
  change (String "-" (NilZero.string_of_uint d))
    with ("-" ++ NilZero.string_of_uint d)%string.
  now rewrite plain_text_app, H.
Qed.

Section Prober.

Variable net : Network.

Lemma setdefaulttimeout_accepted (timeout : Z) (g : SocketModule) :
  valid_timeout timeout ->
  Worker.setdefaulttimeout timeout g = (Ok tt, mkSocketModule (Some timeout)).
Proof.
  unfold valid_timeout, Worker.setdefaulttimeout.
  intros [H0 H1].
  destruct (timeout <=? - Worker.timeout_limit) eqn:E1;
    [apply Z.leb_le in E1; lia|].
  destruct (Worker.timeout_limit <=? timeout) eqn:E2;
    [apply Z.leb_le in E2; lia|].
  destruct (timeout <? 0) eqn:E3; [apply Z.ltb_lt in E3; lia|].
  reflexivity.
Qed.

(** A timeout the socket module refuses leaves the default as it is. *)
Lemma setdefaulttimeout_refused (timeout : Z) (g : SocketModule) :
  ~ valid_timeout timeout ->
  exists e, Worker.setdefaulttimeout timeout g = (Raise e, g) /\
            (e = ValueError \/ e = OverflowError).
Proof.
  unfold valid_timeout, Worker.setdefaulttimeout.
  intros H.
  destruct ((timeout <=? - Worker.timeout_limit)
            || (Worker.timeout_limit <=? timeout)) eqn:E.
  - exists OverflowError. auto.
  - apply orb_false_iff in E as [E1 E2].
    apply Z.leb_gt in E1. apply Z.leb_gt in E2.
    destruct (timeout <? 0) eqn:E3; [|apply Z.ltb_ge in E3; lia].
    exists ValueError. auto.
Qed.

(** What [checkIP] returns with a timeout the socket module accepts. *)
Lemma checkIP_accepted (addr : string) (port timeout : Z) (g : SocketModule) :
  valid_timeout timeout ->
  Worker.checkIP net addr port timeout g =
    (probe_outcome net port timeout addr, mkSocketModule (Some timeout)).
Proof.
  intros Ht. unfold Worker.checkIP.
  now rewrite (setdefaulttimeout_accepted timeout g Ht).
Qed.

Lemma sock_connect_cases (t : option Z) (addr : string) (port : Z) :
  valid_host net addr -> valid_port port ->
  Worker.sock_connect net t addr port =
    if resolves net addr then
      match tcp_connect net addr port t with
      | None => Ok tt
      | Some k => Raise (OSError k)
      end
    else Raise (OSError NameResolution).
Proof.
  intros Hh [Hlo Hhi]. unfold Worker.sock_connect, Worker.fits_C_int.
  rewrite Hh. cbn [negb].
  replace (-2147483648 <=? port) with true by (symmetry; apply Z.leb_le; lia).
  replace (port <=? 2147483647) with true by (symmetry; apply Z.leb_le; lia).
  cbn [andb negb].
  destruct (resolves net addr); cbn [negb]; [|reflexivity].
  replace (port <? 0) with false by (symmetry; apply Z.ltb_ge; lia).
  replace (65535 <? port) with false by (symmetry; apply Z.ltb_ge; lia).
  reflexivity.
Qed.

Lemma probe_outcome_valid (addr : string) (port timeout : Z) :
  valid_host net addr -> valid_port port ->
  probe_outcome net port timeout addr =
    Ok (if connects net port timeout addr
        then PyDict (mkNode addr port) else PyFalse).
Proof.
  intros Hh Hp. unfold probe_outcome.
  rewrite (sock_connect_cases _ _ _ Hh Hp). unfold connects.
  destruct (resolves net addr); simpl; [|reflexivity].
  destruct (tcp_connect net addr port (Some timeout)); reflexivity.
Qed.

(** A probe raises, returns [False], or returns the node it was given. *)
Lemma probe_outcome_cases (addr : string) (port timeout : Z) :
  (exists e, probe_outcome net port timeout addr = Raise e) \/
  probe_outcome net port timeout addr = Ok PyFalse \/
  probe_outcome net port timeout addr = Ok (PyDict (mkNode addr port)).
Proof.
  unfold probe_outcome.
  destruct (Worker.sock_connect net (Some timeout) addr port) as [[]|[k| | | |]];
    simpl; eauto.
Qed.

Lemma probe_reports_outcome (addr : string) (port timeout : Z) :
  valid_timeout timeout ->
  probe_reports net port timeout addr =
    match probe_outcome net port timeout addr with
    | Ok v => truthy v
    | Raise _ => false
    end.
Proof.
  intros Ht. unfold probe_reports. now rewrite (checkIP_accepted _ _ _ _ Ht).
Qed.

Lemma probe_reports_connects (addr : string) (port timeout : Z) :
  valid_host net addr -> valid_port port -> valid_timeout timeout ->
  probe_reports net port timeout addr = connects net port timeout addr.
Proof.
  intros Hh Hp Ht.
  rewrite (probe_reports_outcome _ _ _ Ht), (probe_outcome_valid _ _ _ Hh Hp).
  now destruct (connects net port timeout addr).
Qed.

End Prober.

(** C4.  For every host address, every TCP port and every timeout, as
    the socket module accepts them, [checkIP] returns without raising:
    the node record [{address, port}], which is true, when the
    connection is established, and [False] for every [OSError] of the
    connection attempt (refused, timed out, host or network
    unreachable, name resolution). *)
Theorem checkIP_collapses_connection_errors
    (net : Network) (addr : string) (port timeout : Z) (g : SocketModule) :
  valid_host net addr -> valid_port port -> valid_timeout timeout ->
  exists v : ProbeValue,
    fst (Worker.checkIP net addr port timeout g) = Ok v /\
    truthy v = connects net port timeout addr /\
    (Worker.sock_connect net (Some timeout) addr port = Ok tt ->
     v = PyDict (mkNode addr port)) /\
    (forall k, Worker.sock_connect net (Some timeout) addr port = Raise (OSError k) ->
               v = PyFalse).
Proof.
  intros Hh Hp Ht. rewrite (checkIP_accepted net addr port timeout g Ht).
  cbn [fst]. rewrite (probe_outcome_valid net addr port timeout Hh Hp).
  eexists. split; [reflexivity|]. rewrite (sock_connect_cases net _ _ _ Hh Hp).
  unfold connects.
  destruct (resolves net addr); simpl.
  - destruct (tcp_connect net addr port (Some timeout)); simpl;
      repeat split; try reflexivity; intros; discriminate.
  - repeat split; try reflexivity; intros; discriminate.
Qed.

Lemma checkIP_collapses_connection_errors_witness :
  valid_host lan "192.168.1.30" /\ valid_port 5000 /\ valid_timeout 1 /\
  exists v : ProbeValue,
    fst (Worker.checkIP lan "192.168.1.30" 5000 1 (mkSocketModule None)) = Ok v /\
    truthy v = connects lan 5000 1 "192.168.1.30" /\
    (Worker.sock_connect lan (Some 1) "192.168.1.30" 5000 = Ok tt ->
     v = PyDict (mkNode "192.168.1.30" 5000)) /\
    (forall k, Worker.sock_connect lan (Some 1) "192.168.1.30" 5000
               = Raise (OSError k) -> v = PyFalse).
Proof.
  assert (Hh : valid_host lan "192.168.1.30") by reflexivity.
  assert (Hp : valid_port 5000) by (unfold valid_port; lia).
  assert (Ht : valid_timeout 1)
    by (unfold valid_timeout, Worker.timeout_limit; lia).
  split; [exact Hh|]. split; [exact Hp|]. split; [exact Ht|].
  apply (checkIP_collapses_connection_errors lan "192.168.1.30" 5000 1 _ Hh Hp Ht).
Defined.

(** C9 (as amended).  The timeout is supplied by the caller on every
    call and is applied through the process-wide default of the socket
    module: a call with a timeout that the module accepts (not
    negative, below 9223372037) leaves that default set to the timeout,
    whatever the outcome of the probe, and a call with any other
    timeout raises and leaves the default as it was. *)
Theorem checkIP_sets_default_timeout
    (net : Network) (addr : string) (port timeout : Z) (g : SocketModule) :
  (valid_timeout timeout ->
   snd (Worker.checkIP net addr port timeout g) = mkSocketModule (Some timeout)) /\
  (~ valid_timeout timeout ->
   snd (Worker.checkIP net addr port timeout g) = g /\
   (fst (Worker.checkIP net addr port timeout g) = Raise ValueError \/
    fst (Worker.checkIP net addr port timeout g) = Raise OverflowError)).
Proof.
  split; intros Ht.
  - now rewrite (checkIP_accepted net addr port timeout g Ht).
  - destruct (setdefaulttimeout_refused timeout g Ht) as (e & He & Hk).
    unfold Worker.checkIP. rewrite He.
    destruct Hk as [-> | ->]; simpl; auto.
Qed.

Lemma checkIP_sets_default_timeout_witness :
  valid_timeout 3 /\
  snd (Worker.checkIP lan "192.168.1.10" 5000 3 (mkSocketModule None))
  = mkSocketModule (Some 3) /\
  ~ valid_timeout 9223372037 /\
  snd (Worker.checkIP lan "192.168.1.10" 5000 9223372037 (mkSocketModule (Some 3)))
  = mkSocketModule (Some 3).
Proof.
  assert (Ht : valid_timeout 3)
    by (unfold valid_timeout, Worker.timeout_limit; lia).
  assert (Hn : ~ valid_timeout 9223372037)
    by (unfold valid_timeout, Worker.timeout_limit; lia).
  split; [exact Ht|]. split.
  - exact (proj1 (checkIP_sets_default_timeout lan "192.168.1.10" 5000 3
                    (mkSocketModule None)) Ht).
  - split; [exact Hn|].
    exact (proj1 (proj2 (checkIP_sets_default_timeout lan "192.168.1.10" 5000
                           9223372037 (mkSocketModule (Some 3))) Hn)).
Defined.

(** C9 as stated fails: a probe changes the process-wide default
    timeout. *)
Lemma checkIP_changes_global_timeout :
  snd (Worker.checkIP lan "192.168.1.10" 5000 3 (mkSocketModule None))
  <> mkSocketModule None.
Proof. discriminate. Qed.

(** ** The scanner *)

Lemma scan_targets_seq (prefix : string) :
  Worker.scan_targets prefix =
    map (fun i => (prefix ++ "." ++ str (Z.of_nat i))%string) (seq 1 254).
Proof.
  unfold Worker.scan_targets, range.
  change (Z.to_nat (255 - 1)) with 254%nat.
  rewrite <- (seq_shift 254 0), !map_map.
  apply map_ext. intros k. do 3 f_equal. lia.
Qed.

Lemma In_scan_targets (prefix : string) (i : Z) :
  In (prefix ++ "." ++ str i)%string (Worker.scan_targets prefix) <-> 1 <= i <= 254.
Proof.
  unfold Worker.scan_targets. rewrite in_map_iff. split.
  - intros (j & E & Hj). apply append_inj_r, append_inj_r, str_inj in E.
    subst j. apply In_range in Hj. lia.
  - intros H. exists i. split; [reflexivity|]. apply In_range. lia.
Qed.

Lemma NoDup_scan_targets (prefix : string) : NoDup (Worker.scan_targets prefix).
Proof.
  unfold Worker.scan_targets. apply Finite.Injective_map_NoDup_in.
  - intros x y _ _ E. now apply append_inj_r, append_inj_r, str_inj in E.
  - apply NoDup_range.
Qed.

(** The candidates of a prefix in plain text are in plain text. *)
Lemma plain_scan_targets (prefix : string) :
  plain_text prefix = true ->
  Forall (fun a => plain_text a = true) (Worker.scan_targets prefix).
Proof.
  intros H. unfold Worker.scan_targets. apply Forall_map, Forall_forall.
  intros i _. now rewrite !plain_text_app, H, plain_text_str.
Qed.

Section Scanner.

Variable net : Network.
Variables port timeout : Z.
Hypothesis timeout_ok : valid_timeout timeout.

Lemma run_tasks_accepted (targets : list string) (g : SocketModule) :
  fst (Worker.run_tasks net port timeout targets g)
  = map (probe_outcome net port timeout) targets.
Proof.
  revert g. induction targets as [|a rest IH]; intros g; simpl.
  - reflexivity.
  - rewrite (checkIP_accepted net a port timeout g timeout_ok).
    specialize (IH (mkSocketModule (Some timeout))).
    destruct (Worker.run_tasks net port timeout rest (mkSocketModule (Some timeout))).
    simpl in *. now rewrite IH.
Qed.

Lemma collect_returns (done : list (result ProbeValue)) (acc : list Node) :
  Forall (fun r => exists v, r = Ok v) done ->
  Worker.collect done acc = Ok (acc ++ flat_map appended done).
Proof.
  intros H. revert acc. induction H as [|r rest [v ->] _ IH]; intros acc; simpl.
  - now rewrite app_nil_r.
  - destruct v as [|n]; simpl.
    + apply IH.
    + rewrite IH. now rewrite <- app_assoc.
Qed.

(** The loop over the futures returns only if none of them raised. *)
Lemma collect_Ok_inv (done : list (result ProbeValue)) (acc found : list Node) :
  Worker.collect done acc = Ok found ->
  Forall (fun r => exists v, r = Ok v) done.
Proof.
  revert acc. induction done as [|r rest IH]; intros acc H; [constructor|].
  simpl in H. destruct r as [v|e]; [|discriminate].
  constructor; [eauto|]. destruct v; eapply IH; exact H.
Qed.

Lemma appended_outcomes (targets : list string) :
  flat_map appended (map (probe_outcome net port timeout) targets) =
    map (fun a => mkNode a port) (filter (probe_reports net port timeout) targets).
Proof.
  induction targets as [|a rest IH]; [reflexivity|].
  cbn [map flat_map filter]. rewrite IH.
  rewrite (probe_reports_outcome net a port timeout timeout_ok).
  destruct (probe_outcome_cases net a port timeout) as [[e ->]|[->| ->]];
    reflexivity.
Qed.

(** Whatever list a scan returns holds the nodes of the probes that
    reported their address reachable. *)
Lemma scanLAN_found
    (as_completed : list (result ProbeValue) -> list (result ProbeValue))
    (prefix : string) (g : SocketModule) (found : list Node) :
  (forall l, Permutation (as_completed l) l) ->
  fst (Worker.scanLAN net as_completed port prefix timeout g) = Ok found ->
  Permutation found
    (map (fun a => mkNode a port)
         (filter (probe_reports net port timeout) (Worker.scan_targets prefix))).
Proof.
  intros Hperm. unfold Worker.scanLAN.
  pose proof (run_tasks_accepted (Worker.scan_targets prefix) g) as Htasks.
  destruct (Worker.run_tasks net port timeout (Worker.scan_targets prefix) g)
    as [tasks g1]. cbn [fst] in Htasks. subst tasks. cbn [fst].
  intros H. pose proof (collect_Ok_inv _ _ _ H) as Hok.
  rewrite (collect_returns _ _ Hok) in H. injection H as <-.
  cbn [app]. rewrite <- appended_outcomes.
  apply Permutation_flat_map, Hperm.
Qed.

(** A scan in which no probe raises returns. *)
Lemma scanLAN_returns
    (as_completed : list (result ProbeValue) -> list (result ProbeValue))
    (prefix : string) (g : SocketModule) :
  (forall l, Permutation (as_completed l) l) ->
  Forall (fun a => exists v, probe_outcome net port timeout a = Ok v)
         (Worker.scan_targets prefix) ->
  exists found : list Node,
    fst (Worker.scanLAN net as_completed port prefix timeout g) = Ok found.
Proof.
  intros Hperm Hall. unfold Worker.scanLAN.
  pose proof (run_tasks_accepted (Worker.scan_targets prefix) g) as Htasks.
  destruct (Worker.run_tasks net port timeout (Worker.scan_targets prefix) g)
    as [tasks g1]. cbn [fst] in Htasks. subst tasks. cbn [fst].
  rewrite collect_returns; [eauto|].
  apply Forall_forall. intros r Hr.
  apply (Permutation_in _ (Hperm _)) in Hr.
  apply in_map_iff in Hr as (a & <- & Ha).
  rewrite Forall_forall in Hall. now apply Hall.
Qed.

End Scanner.

(** C7.  For every prefix in plain text, every TCP port and every
    timeout that the socket module accepts, [scanLAN] submits one probe
    for each of the 254 addresses [prefix.1] .. [prefix.254] and for no
    other ([prefix.0] and [prefix.255] are not among them), and returns
    the nodes [(address, port)] of exactly the probes that reported the
    address reachable, in the order in which the probes completed,
    whatever that order is. *)
Theorem scanLAN_returns_reachable_of_254
    (net : Network)
    (as_completed : list (result ProbeValue) -> list (result ProbeValue))
    (port : Z) (prefix : string) (timeout : Z) (g : SocketModule) :
  plain_text prefix = true -> valid_port port -> valid_timeout timeout ->
  (forall l, Permutation (as_completed l) l) ->
  Worker.scan_targets prefix =
    map (fun i => (prefix ++ "." ++ str (Z.of_nat i))%string) (seq 1 254) /\
  List.length (Worker.scan_targets prefix) = 254%nat /\
  NoDup (Worker.scan_targets prefix) /\
  ~ In (prefix ++ ".0")%string (Worker.scan_targets prefix) /\
  ~ In (prefix ++ ".255")%string (Worker.scan_targets prefix) /\
  fst (Worker.run_tasks net port timeout (Worker.scan_targets prefix) g) =
    map (fun a => fst (Worker.checkIP net a port timeout g))
        (Worker.scan_targets prefix) /\
  exists found : list Node,
    fst (Worker.scanLAN net as_completed port prefix timeout g) = Ok found /\
    Permutation found
      (map (fun a => mkNode a port)
           (filter (probe_reports net port timeout) (Worker.scan_targets prefix))).
Proof.
  intros Hplain Hp Ht Hperm.
  split; [apply scan_targets_seq|].
  split; [rewrite scan_targets_seq; now rewrite length_map, length_seq|].
  split; [apply NoDup_scan_targets|].
  split; [intros H; apply (In_scan_targets prefix 0) in H; lia|].
  split; [intros H; apply (In_scan_targets prefix 255) in H; lia|].
  split.
  - rewrite (run_tasks_accepted net port timeout Ht). apply map_ext.
    intros a. now rewrite (checkIP_accepted net a port timeout g Ht).
  - destruct (scanLAN_returns net port timeout Ht as_completed prefix g Hperm)
      as (found & Hfound).
    + eapply Forall_impl; [|exact (plain_scan_targets prefix Hplain)].
      intros a Ha. cbv beta in Ha.
      rewrite (probe_outcome_valid net a port timeout
                 (plain_text_converts net a Ha) Hp). eauto.
    + exists found. split; [exact Hfound|].
      exact (scanLAN_found net port timeout Ht as_completed prefix g found
               Hperm Hfound).
Qed.

Lemma rev_completes {A : Type} (l : list A) : Permutation (rev l) l.
Proof. apply Permutation_sym, Permutation_rev. Defined.

Lemma scanLAN_returns_reachable_of_254_witness :
  plain_text "192.168.1" = true /\ valid_port 5000 /\ valid_timeout 1 /\
  exists found : list Node,
    fst (Worker.scanLAN lan (@rev _) 5000 "192.168.1" 1 (mkSocketModule None))
    = Ok found /\
    Permutation found
      (map (fun a => mkNode a 5000)
           (filter (probe_reports lan 5000 1) (Worker.scan_targets "192.168.1"))).
Proof.
  assert (Hp : valid_port 5000) by (unfold valid_port; lia).
  assert (Ht : valid_timeout 1)
    by (unfold valid_timeout, Worker.timeout_limit; lia).
  split; [reflexivity|]. split; [exact Hp|]. split; [exact Ht|].
  apply (scanLAN_returns_reachable_of_254 lan (@rev _) 5000 "192.168.1" 1
           (mkSocketModule None) eq_refl Hp Ht (@rev_completes _)).
Defined.

(** A scan with arguments that the socket module accepts, in terms of
    the network. *)
Lemma scanLAN_valid
    (net : Network)
    (as_completed : list (result ProbeValue) -> list (result ProbeValue))
    (port : Z) (prefix : string) (timeout : Z) (g : SocketModule) :
  plain_text prefix = true -> valid_port port -> valid_timeout timeout ->
  (forall l, Permutation (as_completed l) l) ->
  exists found : list Node,
    fst (Worker.scanLAN net as_completed port prefix timeout g) = Ok found /\
    Permutation found
      (map (fun a => mkNode a port)
           (filter (connects net port timeout) (Worker.scan_targets prefix))).
Proof.
  intros Hplain Hp Ht Hperm.
  pose proof (plain_scan_targets prefix Hplain) as Hall.
  rewrite Forall_forall in Hall.
  destruct (scanLAN_returns net port timeout Ht as_completed prefix g Hperm)
    as (found & Hfound).
  - apply Forall_forall. intros a Ha.
    rewrite (probe_outcome_valid net a port timeout
               (plain_text_converts net a (Hall a Ha)) Hp). eauto.
  - exists found. split; [exact Hfound|].
    rewrite <- (filter_ext_in (probe_reports net port timeout)).
    + exact (scanLAN_found net port timeout Ht as_completed prefix g found
               Hperm Hfound).
    + intros a Ha. apply probe_reports_connects; auto.
      apply plain_text_converts. now apply Hall.
Qed.

(** The scan on the example network finds the two hosts that answer,
    in completion order. *)
Example scanLAN_lan :
  fst (Worker.scanLAN lan (@rev _) 5000 "192.168.1" 1 (mkSocketModule None))
  = Ok [mkNode "192.168.1.20" 5000; mkNode "192.168.1.10" 5000].
Proof. vm_compute. reflexivity. Qed.

Lemma filter_none {A : Type} (f : A -> bool) (l : list A) :
  (forall a, In a l -> f a = false) -> filter f l = [].
Proof.
  induction l as [|a l IH]; simpl; intros H; [reflexivity|].
  rewrite (H a) by now left. apply IH. intros b Hb. apply H. now right.
Qed.

(** A scan in which every connection attempt ends in a connection error
    returns the empty list and emits [None]. *)
Lemma scanNodes_nothing_found
    (net : Network)
    (as_completed : list (result ProbeValue) -> list (result ProbeValue))
    (g : SocketModule) (ip : string) :
  getsockname net = Ok ip ->
  (forall l, Permutation (as_completed l) l) ->
  (forall a, In a (Worker.scan_targets (join "." (firstn 3 (split "." ip)))) ->
             exists k, Worker.sock_connect net (Some 1) a Worker.scanPort
                       = Raise (OSError k)) ->
  fst (Worker.scanLAN net as_completed Worker.scanPort
         (join "." (firstn 3 (split "." ip))) 1 g) = Ok [] /\
  fst (Worker.scanNodes net as_completed g) = Ok None.
Proof.
  intros Hip Hperm Hdead.
  assert (Ht : valid_timeout 1)
    by (unfold valid_timeout, Worker.timeout_limit; lia).
  set (prefix := join "." (firstn 3 (split "." ip))) in *.
  assert (Hout : forall a, In a (Worker.scan_targets prefix) ->
            probe_outcome net Worker.scanPort 1 a = Ok PyFalse).
  { intros a Ha. destruct (Hdead a Ha) as [k Hk].
    unfold probe_outcome. now rewrite Hk. }
  destruct (scanLAN_returns net Worker.scanPort 1 Ht as_completed prefix g Hperm)
    as (found & Hfound).
  { apply Forall_forall. intros a Ha. rewrite (Hout a Ha). eauto. }
  pose proof (scanLAN_found net Worker.scanPort 1 Ht as_completed prefix g found
                Hperm Hfound) as Hpf.
  rewrite filter_none in Hpf.
  - apply Permutation_sym, Permutation_nil in Hpf. subst found.
    split; [exact Hfound|].
    unfold Worker.scanNodes, Worker.localIP. rewrite Hip. fold prefix.
    destruct (Worker.scanLAN _ _ _ _ _ _) as [r g1]. cbn [fst] in Hfound. subst r.
    reflexivity.
  - intros a Ha. rewrite (probe_reports_outcome net a _ 1 Ht), (Hout a Ha).
    reflexivity.
Qed.

(** C6.  When every one of the 254 connection attempts ends in a
    connection error, the scan returns the empty list without raising
    and [scanNodes] emits [None] on [activeNodes]; the signal delivers
    the empty list to [addNodes], which returns without raising, adds
    nothing and re-enables the window that [scanHandler] disabled: the
    window is disabled while the scan is under way and enabled once the
    empty result has arrived. *)
Theorem empty_scan_is_signalled
    (net : Network)
    (as_completed : list (result ProbeValue) -> list (result ProbeValue))
    (g : SocketModule) (ip : string) (w : MainWindow) :
  getsockname net = Ok ip ->
  (forall l, Permutation (as_completed l) l) ->
  (forall a, In a (Worker.scan_targets (join "." (firstn 3 (split "." ip)))) ->
             exists k, Worker.sock_connect net (Some 1) a Worker.scanPort
                       = Raise (OSError k)) ->
  fst (Worker.scanLAN net as_completed Worker.scanPort
         (join "." (firstn 3 (split "." ip))) 1 g) = Ok [] /\
  fst (Worker.scanNodes net as_completed g) = Ok None /\
  addNodes (activeNodes_delivers None) (scanHandler w)
    = ((setDisabled false w, []), None) /\
  window_disabled (scanHandler w) = true /\
  window_disabled (react (scanHandler w) (EvActiveNodes None)) = false /\
  nodes (react (scanHandler w) (EvActiveNodes None)) = nodes w /\
  groupBoxes (react (scanHandler w) (EvActiveNodes None)) = groupBoxes w.
Proof.
  intros Hip Hperm Hdead.
  destruct (scanNodes_nothing_found net as_completed g ip Hip Hperm Hdead) as [H1 H2].
  repeat split; assumption || reflexivity.
Qed.

Lemma empty_scan_is_signalled_witness :
  fst (Worker.scanNodes quiet_lan (@rev _) (mkSocketModule None)) = Ok None /\
  addNodes (activeNodes_delivers None) (scanHandler init)
    = ((setDisabled false init, []), None) /\
  window_disabled (react (scanHandler init) (EvActiveNodes None)) = false.
Proof.
  destruct (empty_scan_is_signalled quiet_lan (@rev _) (mkSocketModule None)
              "192.168.1.17" init eq_refl (@rev_completes _))
    as (_ & H2 & H3 & _ & H5 & _).
  - intros a Ha. exists TimedOut.
    change (join "." (firstn 3 (split "." "192.168.1.17"))) with "192.168.1" in Ha.
    pose proof (plain_scan_targets "192.168.1" eq_refl) as Hall.
    rewrite Forall_forall in Hall.
    rewrite (sock_connect_cases quiet_lan _ a _
               (plain_text_converts _ a (Hall a Ha))).
    + reflexivity.
    + unfold valid_port, Worker.scanPort. lia.
  - repeat split; assumption.
Defined.


(** ** Lists and removal *)

Lemma node_eqb_eq (a b : Node) : node_eqb a b = true <-> a = b.
Proof.
  unfold node_eqb. rewrite andb_true_iff, String.eqb_eq, Z.eqb_eq.
  destruct a, b; simpl. split.
  - intros [-> ->]. reflexivity.
  - intros E. injection E as -> ->. split; reflexivity.
Qed.

Lemma node_eqb_refl (a : Node) : node_eqb a a = true.
Proof. now apply node_eqb_eq. Qed.

Lemma contains_In (n : Node) (l : list Node) :
  contains node_eqb n l = true <-> In n l.
Proof.
  unfold contains. rewrite existsb_exists. split.
  - intros (y & Hy & E). apply node_eqb_eq in E. now subst.
  - intros H. exists n. split; [exact H|apply node_eqb_refl].
Qed.

Section ListRemove.

Context {A : Type}.
Variable eqb : A -> A -> bool.

(** [list.remove] takes out the first element equal to its argument. *)
Lemma list_remove_Ok (x : A) (l l' : list A) :
  list_remove eqb x l = Ok l' ->
  exists pre y post,
    l = pre ++ y :: post /\ l' = pre ++ post /\ eqb y x = true /\
    Forall (fun z => eqb z x = false) pre.
Proof.
  revert l'. induction l as [|y l IH]; intros l' H; simpl in H.
  - discriminate.
  - destruct (eqb y x) eqn:E.
    + injection H as <-. exists [], y, l. repeat split; auto.
    + destruct (list_remove eqb x l) as [r|e]; simpl in H; [|discriminate].
      injection H as <-.
      destruct (IH r eq_refl) as (pre & z & post & -> & -> & Hz & Hpre).
      exists (y :: pre), z, post. repeat split; auto.
Qed.

(** It raises [ValueError] exactly when no element is equal to it. *)
Lemma list_remove_Raise (x : A) (l : list A) (e : PyExc) :
  list_remove eqb x l = Raise e ->
  e = ValueError /\ existsb (fun z => eqb z x) l = false.
Proof.
  induction l as [|y l IH]; simpl; intros H.
  - injection H as <-. split; reflexivity.
  - destruct (eqb y x) eqn:E; [discriminate|].
    destruct (list_remove eqb x l) as [r|e']; simpl in H; [discriminate|].
    injection H as <-. simpl. now apply IH.
Qed.

Lemma list_remove_first (x y : A) (pre post : list A) :
  Forall (fun z => eqb z x = false) pre -> eqb y x = true ->
  list_remove eqb x (pre ++ y :: post) = Ok (pre ++ post).
Proof.
  intros Hpre Hy. induction Hpre as [|z pre Hz _ IH]; simpl.
  - now rewrite Hy.
  - rewrite Hz, IH. reflexivity.
Qed.

End ListRemove.

(** The loop of [removeGroupBox] over [self.nodes] removes the first
    node at the address and never raises. *)
Lemma remove_node_spec (addr : string) (pre rest : list Node) :
  Forall (fun n => String.eqb (n_address n) addr = false) pre ->
  remove_node addr (pre ++ rest) rest = Ok (pre ++ remove_first_addr addr rest).
Proof.
  revert pre. induction rest as [|n rest IH]; intros pre Hpre; simpl.
  - reflexivity.
  - destruct (String.eqb (n_address n) addr) eqn:E.
    + apply list_remove_first; [|apply node_eqb_refl].
      apply Forall_forall. intros z Hz.
      rewrite Forall_forall in Hpre. specialize (Hpre z Hz).
      destruct (node_eqb z n) eqn:Ezn; [|reflexivity].
      apply node_eqb_eq in Ezn. subst z. congruence.
    + replace (pre ++ n :: rest) with ((pre ++ [n]) ++ rest)
        by (now rewrite <- app_assoc).
      rewrite IH.
      * now rewrite <- app_assoc.
      * apply Forall_app. split; [exact Hpre|]. now constructor.
Qed.

Lemma remove_node_all (addr : string) (l : list Node) :
  remove_node addr l l = Ok (remove_first_addr addr l).
Proof. exact (remove_node_spec addr [] l (Forall_nil _)). Qed.

Lemma remove_first_addr_absent (addr : string) (l : list Node) :
  ~ In addr (map n_address l) -> remove_first_addr addr l = l.
Proof.
  induction l as [|n l IH]; simpl; intros H; [reflexivity|].
  destruct (String.eqb (n_address n) addr) eqn:E.
  - apply String.eqb_eq in E. tauto.
  - f_equal. apply IH. tauto.
Qed.

Lemma remove_first_addr_present (addr : string) (l : list Node) :
  In addr (map n_address l) ->
  Permutation (map n_address l) (addr :: map n_address (remove_first_addr addr l)).
Proof.
  induction l as [|n l IH]; simpl; intros H; [contradiction|].
  destruct (String.eqb (n_address n) addr) eqn:E.
  - apply String.eqb_eq in E. now rewrite E.
  - destruct H as [H|H]; [apply String.eqb_neq in E; contradiction|].
    simpl. rewrite perm_swap. apply perm_skip. now apply IH.
Qed.

(** [removeGroupBox] in full. *)
Lemma removeGroupBox_listed (g x : GroupBox) (pre post : list GroupBox) (w : MainWindow) :
  is_deleted g w = false ->
  groupBoxes w = pre ++ x :: post ->
  Forall (fun z => same_widget z g = false) pre ->
  same_widget x g = true ->
  removeGroupBox g w =
    (mkMainWindow (remove_first_addr (address g) (nodes w)) (pre ++ post)
                  (toolbar_disabled w) (window_disabled w) (made w)
                  (gid g :: pending_delete w) (deleted w), None).
Proof.
  intros Hd Hl Hpre Hx. unfold removeGroupBox.
  rewrite Hd, Hl, (list_remove_first same_widget g x pre post Hpre Hx).
  cbn [deleteLater with_groupBoxes nodes]. rewrite remove_node_all. reflexivity.
Qed.

Lemma removeGroupBox_unlisted (g : GroupBox) (w : MainWindow) :
  is_deleted g w = false ->
  listed g (groupBoxes w) = false ->
  removeGroupBox g w = (w, Some ValueError).
Proof.
  intros Hd H. unfold removeGroupBox. rewrite Hd.
  destruct (list_remove same_widget g (groupBoxes w)) as [l'|e] eqn:E.
  - apply list_remove_Ok in E as (pre & y & post & Hl & _ & Hy & _).
    unfold listed in H. rewrite Hl, existsb_app in H. simpl in H.
    rewrite Hy, orb_true_r in H. discriminate.
  - apply list_remove_Raise in E as [-> _]. reflexivity.
Qed.

Lemma removeGroupBox_deleted (g : GroupBox) (w : MainWindow) :
  is_deleted g w = true ->
  removeGroupBox g w = (w, Some RuntimeError).
Proof. intros Hd. unfold removeGroupBox. now rewrite Hd. Qed.

Lemma is_deleted_In (g : GroupBox) (w : MainWindow) :
  is_deleted g w = true <-> In (gid g) (deleted w).
Proof.
  unfold is_deleted. rewrite existsb_exists. split.
  - intros (k & Hk & E). apply Nat.eqb_eq in E. now rewrite E.
  - intros H. exists (gid g). split; [exact H|apply Nat.eqb_refl].
Qed.

Lemma listed_In (g : GroupBox) (l : list GroupBox) :
  listed g l = true <-> In (gid g) (map gid l).
Proof.
  unfold listed. rewrite existsb_exists, in_map_iff. split.
  - intros (x & Hx & E). exists x. split; [|exact Hx]. now apply Nat.eqb_eq.
  - intros (x & E & Hx). exists x. split; [exact Hx|]. now apply Nat.eqb_eq.
Qed.

(** A widget of the list has not been deleted. *)
Lemma listed_alive (g : GroupBox) (w : MainWindow) :
  registry_wf w -> listed g (groupBoxes w) = true -> is_deleted g w = false.
Proof.
  intros (_ & _ & _ & _ & Ha) Hl.
  destruct (is_deleted g w) eqn:E; [|reflexivity].
  apply is_deleted_In in E. apply listed_In in Hl.
  apply in_map_iff in Hl as (x & Ex & Hx).
  rewrite Forall_forall in Ha. exfalso. apply (Ha x Hx).
  rewrite Ex. apply in_or_app. now right.
Qed.

Lemma In_listed (g : GroupBox) (l : list GroupBox) : In g l -> listed g l = true.
Proof. intros H. apply listed_In. now apply in_map. Qed.

Lemma listed_split (g : GroupBox) (l : list GroupBox) :
  listed g l = true ->
  exists pre x post,
    l = pre ++ x :: post /\ same_widget x g = true /\
    Forall (fun z => same_widget z g = false) pre.
Proof.
  induction l as [|y l IH]; simpl; intros H; [discriminate|].
  destruct (same_widget y g) eqn:E.
  - exists [], y, l. repeat split; auto.
  - destruct (IH H) as (pre & x & post & -> & Hx & Hpre).
    exists (y :: pre), x, post. repeat split; auto.
Qed.

(** ** The invariant of the window *)

Lemma StronglySorted_snoc (l : list nat) (k : nat) :
  StronglySorted lt l -> Forall (fun x => (x < k)%nat) l ->
  StronglySorted lt (l ++ [k]).
Proof.
  induction 1 as [|x l Hs IH Hx]; intros Hk; simpl.
  - constructor; constructor.
  - inversion Hk; subst. constructor.
    + now apply IH.
    + apply Forall_app. split; [exact Hx|]. now constructor.
Qed.

Lemma StronglySorted_remove (l1 l2 : list nat) (x : nat) :
  StronglySorted lt (l1 ++ x :: l2) -> StronglySorted lt (l1 ++ l2).
Proof.
  induction l1 as [|y l1 IH]; simpl; intros H.
  - now inversion H.
  - inversion H as [|? ? Hs Hy]; subst. constructor.
    + now apply IH.
    + apply Forall_app in Hy as [H1 H2]. apply Forall_app. split; [exact H1|].
      now inversion H2.
Qed.

Lemma StronglySorted_tail (l1 l2 : list nat) :
  StronglySorted lt (l1 ++ l2) -> StronglySorted lt l2.
Proof.
  induction l1 as [|y l1 IH]; simpl; intros H; [exact H|].
  inversion H; subst. now apply IH.
Qed.

Lemma sorted_gid_inj (l : list GroupBox) (x y : GroupBox) :
  StronglySorted lt (map gid l) -> In x l -> In y l -> gid x = gid y -> x = y.
Proof.
  induction l as [|z l IH]; simpl; intros Hs Hx Hy E; [contradiction|].
  inversion Hs as [|? ? Hs' Hz]; subst.
  rewrite Forall_forall in Hz.
  destruct Hx as [<-|Hx], Hy as [<-|Hy]; auto.
  - specialize (Hz (gid y) (in_map gid _ _ Hy)). lia.
  - specialize (Hz (gid x) (in_map gid _ _ Hx)). lia.
Qed.

Lemma same_widget_eq (a b : GroupBox) : same_widget a b = true <-> gid a = gid b.
Proof. unfold same_widget. apply Nat.eqb_eq. Qed.

Lemma wf_init : registry_wf init.
Proof. repeat split; constructor. Qed.

Lemma wf_flags (w : MainWindow) (t d : bool) :
  registry_wf w ->
  registry_wf (mkMainWindow (nodes w) (groupBoxes w) t d (made w)
                            (pending_delete w) (deleted w)).
Proof. intros H. exact H. Qed.

Lemma wf_addNodes_body (node : Node) (w : MainWindow) (emitted : list Node) :
  registry_wf w ->
  registry_wf (fst (fst (addNodes_body node (w, emitted)))).
Proof.
  intros (Hs & Hm & Hp & Hq & Ha). unfold addNodes_body.
  destruct (contains node_eqb node (nodes w)); simpl;
    [split; [exact Hs|split; [exact Hm|split; [exact Hp|split; [exact Hq|exact Ha]]]]|].
  split; [|split; [|split; [|split]]]; simpl.
  - rewrite map_app. simpl. apply StronglySorted_snoc; [exact Hs|].
    now rewrite Forall_map.
  - apply Forall_app. split.
    + eapply Forall_impl; [|exact Hm]. simpl. intros; lia.
    + constructor; [simpl; lia|constructor].
  - rewrite !map_app. simpl. now apply Permutation_app_tail.
  - eapply Forall_impl; [|exact Hq]. simpl. intros; lia.
  - apply Forall_app. split; [exact Ha|].
    constructor; [|constructor]. simpl. intros Hin.
    rewrite Forall_forall in Hq. specialize (Hq _ Hin). simpl in Hq. lia.
Qed.

Lemma wf_map_boxes (f : GroupBox -> GroupBox) (w : MainWindow) :
  (forall g, gid (f g) = gid g /\ address (f g) = address g) ->
  registry_wf w ->
  registry_wf (with_groupBoxes (map f (groupBoxes w)) w).
Proof.
  intros Hf (Hs & Hm & Hp & Hq & Ha). unfold registry_wf, with_groupBoxes. simpl.
  rewrite !map_map.
  rewrite (map_ext (fun x => gid (f x)) gid) by (intros; apply Hf).
  rewrite (map_ext (fun x => address (f x)) address) by (intros; apply Hf).
  split; [exact Hs|]. split; [|split; [exact Hp|split; [exact Hq|]]].
  - rewrite Forall_map. eapply Forall_impl; [|exact Hm].
    simpl. intros a Hx. now rewrite (proj1 (Hf a)).
  - rewrite Forall_map. eapply Forall_impl; [|exact Ha].
    simpl. intros a Hx. now rewrite (proj1 (Hf a)).
Qed.

Lemma wf_on_widget (f : GroupBox -> GroupBox) (g : GroupBox) (w : MainWindow) :
  (forall x, gid (f x) = gid x /\ address (f x) = address x) ->
  registry_wf w -> registry_wf (on_widget f g w).
Proof.
  intros Hf Hw. unfold on_widget. apply wf_map_boxes; [|exact Hw].
  intros x. destruct (same_widget x g); auto.
Qed.

Lemma genuine_listed (g : GroupBox) (w : MainWindow) :
  registry_wf w -> In g (groupBoxes w) -> genuine g w.
Proof.
  intros (Hs & _) Hin x Hx E. now rewrite (sorted_gid_inj _ x g Hs Hx Hin E).
Qed.

Lemma genuine_on_widget (f : GroupBox -> GroupBox) (g h : GroupBox) (w : MainWindow) :
  (forall x, gid (f x) = gid x /\ address (f x) = address x) ->
  genuine g w -> genuine g (on_widget f h w).
Proof.
  intros Hf Hg x Hx E. unfold on_widget in Hx. simpl in Hx.
  apply in_map_iff in Hx as (y & <- & Hy).
  destruct (same_widget y h).
  - rewrite (proj2 (Hf y)). apply Hg; [exact Hy|]. now rewrite <- (proj1 (Hf y)).
  - now apply Hg.
Qed.

Lemma wf_removeGroupBox (g : GroupBox) (w : MainWindow) :
  registry_wf w -> genuine g w -> registry_wf (fst (removeGroupBox g w)).
Proof.
  intros Hw Hg. destruct (is_deleted g w) eqn:Ed;
    [now rewrite removeGroupBox_deleted|].
  destruct (listed g (groupBoxes w)) eqn:El.
  - destruct (listed_split g _ El) as (pre & x & post & Hl & Hx & Hpre).
    rewrite (removeGroupBox_listed g x pre post w Ed Hl Hpre Hx). simpl.
    destruct Hw as (Hs & Hm & Hp & Hq & Ha). rewrite Hl in Hs, Hm, Hp, Ha.
    assert (Ea : address x = address g).
    { apply Hg; [rewrite Hl; apply in_elt|now apply same_widget_eq]. }
    assert (Eg : gid x = gid g) by now apply same_widget_eq.
    split; [|split; [|split; [|split]]]; simpl.
    + rewrite map_app in *. simpl in Hs. now apply StronglySorted_remove in Hs.
    + apply Forall_app in Hm as [H1 H2]. apply Forall_app. split; [exact H1|].
      now inversion H2.
    + rewrite map_app in *. simpl in Hp. rewrite Ea in Hp.
      assert (Hin : In (address g) (map n_address (nodes w))).
      { apply (Permutation_in _ (Permutation_sym Hp)), in_elt. }
      apply remove_first_addr_present in Hin.
      apply Permutation_cons_inv with (a := address g).
      rewrite <- Hin, Hp. symmetry. apply Permutation_middle.
    + constructor; [|exact Hq].
      apply Forall_app in Hm as [_ H2]. inversion H2; subst. now rewrite <- Eg.
    + assert (Hfresh : forall z, In z (pre ++ post) -> gid z <> gid g).
      { intros z Hz E. rewrite <- Eg in E. rewrite map_app in Hs. simpl in Hs.
        apply in_app_or in Hz as [Hz|Hz].
        - rewrite Forall_forall in Hpre. specialize (Hpre z Hz).
          apply Nat.eqb_neq in Hpre. congruence.
        - apply StronglySorted_tail in Hs.
          inversion Hs as [|? ? _ Hx']; subst.
          rewrite Forall_forall in Hx'.
          specialize (Hx' (gid z) (in_map gid _ _ Hz)). lia. }
      apply Forall_forall. intros z Hz [E|Hin]; [now apply (Hfresh z Hz)|].
      rewrite Forall_forall in Ha. apply (Ha z); [|exact Hin].
      apply in_app_or in Hz as [Hz|Hz]; apply in_or_app;
        [now left|right; now right].
  - now rewrite removeGroupBox_unlisted.
Qed.

Lemma box_setDisabled_keeps (b : bool) (x : GroupBox) :
  gid (box_setDisabled b x) = gid x /\ address (box_setDisabled b x) = address x.
Proof. split; reflexivity. Qed.

Lemma box_setChecked_keeps (b : bool) (x : GroupBox) :
  gid (box_setChecked b x) = gid x /\ address (box_setChecked b x) = address x.
Proof. split; reflexivity. Qed.

Lemma box_setText_keeps (s : string) (x : GroupBox) :
  gid (box_setText s x) = gid x /\ address (box_setText s x) = address x.
Proof. split; reflexivity. Qed.

(** ** Loops *)

Section LoopFacts.

Context {S A : Type}.
Variable body : A -> S -> S * option PyExc.
Variable P : S -> Prop.

(** A property kept by the body on the items of the list is kept by
    the loop over the list. *)
Lemma for_each_inv (l : list A) (st : S) :
  (forall x st0, In x l -> P st0 -> P (fst (body x st0))) ->
  P st -> P (fst (for_each body l st)).
Proof.
  revert st. induction l as [|x l IH]; intros st Hb Hst; simpl; [exact Hst|].
  pose proof (Hb x st (or_introl eq_refl) Hst) as H1.
  destruct (body x st) as [st1 [e|]]; simpl in *; [exact H1|].
  apply IH; [|exact H1]. intros y st0 Hy. apply Hb. now right.
Qed.

Variable items : S -> list A.

(** A property kept by the body on the items it is given is kept by
    the loop over the live list. *)
Lemma for_each_live_inv (fuel i : nat) (st : S) (r : S * option PyExc) :
  (forall x st0 j, P st0 -> nth_error (items st0) j = Some x ->
                   P (fst (body x st0))) ->
  P st -> for_each_live body items fuel i st = Some r -> P (fst r).
Proof.
  intros Hb. revert i st. induction fuel as [|fuel IH]; intros i st Hst H; simpl in H.
  - destruct (nth_error (items st) i); [discriminate|].
    injection H as <-. exact Hst.
  - destruct (nth_error (items st) i) as [x|] eqn:E.
    + pose proof (Hb x st i Hst E) as H1.
      destruct (body x st) as [st1 [e|]]; simpl in *.
      * injection H as <-. exact H1.
      * now apply (IH (Datatypes.S i) st1).
    + injection H as <-. exact Hst.
Qed.

(** When the body never makes the list longer, fuel for the length of
    the list reaches the end of the loop. *)
Lemma for_each_live_returns (fuel i : nat) (st : S) :
  (forall x st0 j, P st0 -> nth_error (items st0) j = Some x ->
                   P (fst (body x st0)) /\
                   (List.length (items (fst (body x st0))) <= List.length (items st0))%nat) ->
  P st -> (List.length (items st) <= fuel + i)%nat ->
  exists r, for_each_live body items fuel i st = Some r.
Proof.
  intros Hb. revert i st. induction fuel as [|fuel IH]; intros i st Hst Hlen; simpl.
  - destruct (nth_error (items st) i) eqn:E; [|eauto].
    assert (nth_error (items st) i <> None) as Hn by congruence.
    apply nth_error_Some in Hn. lia.
  - destruct (nth_error (items st) i) as [x|] eqn:E; [|eauto].
    destruct (Hb x st i Hst E) as [H1 H2].
    destruct (body x st) as [st1 [e|]]; simpl in *; [eauto|].
    apply IH; [exact H1|lia].
Qed.

End LoopFacts.

(** ** Merging scan results *)

Lemma newly_In (known l : list Node) (n : Node) :
  In n (newly known l) <-> In n l /\ ~ In n known.
Proof.
  revert known. induction l as [|m l IH]; intros known; simpl; [tauto|].
  destruct (contains node_eqb m known) eqn:E.
  - apply contains_In in E. rewrite IH. split.
    + intros [H1 H2]. tauto.
    + intros [[<-|H1] H2]; [contradiction|tauto].
  - assert (Hm : ~ In m known).
    { intros H. apply contains_In in H. congruence. }
    simpl. rewrite IH, in_app_iff. simpl. split.
    + intros [<-|[H1 H2]]; [tauto|]. tauto.
    + intros [[<-|H1] H2]; [tauto|].
      destruct (node_eqb m n) eqn:Emn.
      * apply node_eqb_eq in Emn. tauto.
      * right. split; [exact H1|]. intros [H|[H|[]]]; [tauto|].
        subst. now rewrite node_eqb_refl in Emn.
Qed.

Lemma newly_NoDup (known l : list Node) : NoDup (newly known l).
Proof.
  revert known. induction l as [|m l IH]; intros known; simpl; [constructor|].
  destruct (contains node_eqb m known); [apply IH|].
  constructor; [|apply IH].
  rewrite newly_In, in_app_iff. simpl. tauto.
Qed.

Lemma newly_known (known l : list Node) :
  (forall n, In n l -> In n known) -> newly known l = [].
Proof.
  intros H. destruct (newly known l) as [|n r] eqn:E; [reflexivity|].
  assert (Hn : In n (newly known l)) by (rewrite E; now left).
  apply newly_In in Hn as [H1 H2]. now apply H in H1.
Qed.

Lemma make_boxes_app (k : nat) (l1 l2 : list Node) :
  make_boxes k (l1 ++ l2) = make_boxes k l1 ++ make_boxes (k + List.length l1) l2.
Proof.
  revert k. induction l1 as [|n l1 IH]; intros k; simpl.
  - now rewrite Nat.add_0_r.
  - rewrite IH. do 3 f_equal. lia.
Qed.

Lemma make_boxes_nodes (k : nat) (l : list Node) :
  map box_node (make_boxes k l) = l.
Proof.
  revert k. induction l as [|[a p] l IH]; intros k; simpl; [reflexivity|].
  now rewrite IH.
Qed.

Lemma addNodes_loop (l : list Node) (w : MainWindow) (emitted : list Node) :
  for_each addNodes_body l (w, emitted) =
    ((mkMainWindow (nodes w ++ newly (nodes w) l)
                   (groupBoxes w ++ make_boxes (made w) (newly (nodes w) l))
                   (toolbar_disabled w) (window_disabled w)
                   (made w + List.length (newly (nodes w) l))
                   (pending_delete w) (deleted w),
      emitted ++ newly (nodes w) l), None).
Proof.
  revert w emitted. induction l as [|n l IH]; intros w emitted; simpl.
  - rewrite !app_nil_r, Nat.add_0_r. now destruct w.
  - destruct (contains node_eqb n (nodes w)) eqn:E; simpl.
    + apply IH.
    + rewrite IH. simpl. rewrite <- !app_assoc. simpl.
      do 3 f_equal. lia.
Qed.

(** [addNodes] on a list, in full. *)
Lemma addNodes_list (l : list Node) (w : MainWindow) :
  addNodes (Some l) w =
    ((mkMainWindow (nodes w ++ newly (nodes w) l)
                   (groupBoxes w ++ make_boxes (made w) (newly (nodes w) l))
                   (toolbar_disabled w) false
                   (made w + List.length (newly (nodes w) l))
                   (pending_delete w) (deleted w),
      newly (nodes w) l), None).
Proof. unfold addNodes. now rewrite addNodes_loop. Qed.

Lemma wf_addNodes (arg : option (list Node)) (w : MainWindow) :
  registry_wf w -> registry_wf (fst (fst (addNodes arg w))).
Proof.
  intros Hw. destruct arg as [l|]; [|exact Hw]. unfold addNodes.
  pose proof (for_each_inv addNodes_body (fun st => registry_wf (fst st)) l (w, [])) as H.
  destruct (for_each addNodes_body l (w, [])) as [[w1 em] [e|]]; simpl in *.
  - apply H; [|exact Hw]. intros x [w0 em0] _ H0. now apply wf_addNodes_body.
  - apply (wf_flags w1 (toolbar_disabled w1) false).
    apply H; [|exact Hw]. intros x [w0 em0] _ H0. now apply wf_addNodes_body.
Qed.

(** A merge tests [node not in self.nodes], the equality of the whole
    node: it appends to the node list and to the group boxes exactly
    the incoming nodes that were not in the node list, once each and in
    arrival order, and reports exactly those as newly added. *)
Lemma addNodes_dedups_on_node (l : list Node) (w : MainWindow) :
  exists w' new,
    addNodes (Some l) w = ((w', new), None) /\
    nodes w' = nodes w ++ new /\
    groupBoxes w' = groupBoxes w ++ make_boxes (made w) new /\
    map box_node (make_boxes (made w) new) = new /\
    NoDup new /\
    (forall n, In n new <-> In n l /\ ~ In n (nodes w)) /\
    ((forall n, In n l -> In n (nodes w)) ->
     new = [] /\ nodes w' = nodes w /\ groupBoxes w' = groupBoxes w) /\
    (exists w'', addNodes (Some l) w' = ((w'', []), None) /\
                 nodes w'' = nodes w' /\ groupBoxes w'' = groupBoxes w') /\
    (forall p, (forall n, In n (nodes w ++ l) -> n_port n = p) ->
     forall n, In n new <->
               In n l /\ ~ In (n_address n) (map n_address (nodes w))).
Proof.
  eexists. exists (newly (nodes w) l).
  split; [apply addNodes_list|]. cbn [nodes groupBoxes].
  split; [reflexivity|]. split; [reflexivity|].
  split; [apply make_boxes_nodes|]. split; [apply newly_NoDup|].
  split; [apply newly_In|]. split; [|split].
  - intros H. rewrite (newly_known _ _ H). simpl. now rewrite !app_nil_r.
  - eexists. rewrite addNodes_list. cbn [nodes groupBoxes made].
    rewrite (newly_known (nodes w ++ newly (nodes w) l) l).
    + split; [reflexivity|]. simpl. now rewrite !app_nil_r.
    + intros n Hn. apply in_app_iff.
      destruct (contains node_eqb n (nodes w)) eqn:E.
      * left. now apply contains_In.
      * right. apply newly_In. split; [exact Hn|].
        intros H. apply contains_In in H. congruence.
  - intros p Hport n. rewrite newly_In. split; intros [H1 H2]; split; auto.
    + intros Ha. apply in_map_iff in Ha as (m & Eam & Hm). apply H2.
      replace n with m; [exact Hm|].
      pose proof (Hport m (proj2 (in_app_iff _ _ _) (or_introl Hm))) as Pm.
      pose proof (Hport n (proj2 (in_app_iff _ _ _) (or_intror H1))) as Pn.
      destruct m, n. simpl in *. congruence.
    + intros Hin. apply H2. now apply in_map.
Qed.

(** C2.  The nodes of one deployment carry one port, as those the
    scanner emits do.  There a merge deduplicates on the address: it
    returns without raising, appends to the node list and to the group
    boxes exactly the incoming nodes whose address was not present,
    once each and in arrival order, and reports exactly those as newly
    added; no address is listed twice afterwards; merging nodes whose
    addresses are all present leaves the registry unchanged; and
    merging the same list again adds and reports nothing. *)
Theorem addNodes_dedups_on_address (p : Z) (l : list Node) (w : MainWindow) :
  Forall (fun n => n_port n = p) (nodes w) ->
  Forall (fun n => n_port n = p) l ->
  exists w' new,
    addNodes (Some l) w = ((w', new), None) /\
    nodes w' = nodes w ++ new /\
    groupBoxes w' = groupBoxes w ++ make_boxes (made w) new /\
    map box_node (make_boxes (made w) new) = new /\
    (forall n, In n new <->
               In n l /\ ~ In (n_address n) (map n_address (nodes w))) /\
    NoDup (map n_address new) /\
    (NoDup (map n_address (nodes w)) -> NoDup (map n_address (nodes w'))) /\
    ((forall n, In n l -> In (n_address n) (map n_address (nodes w))) ->
     new = [] /\ nodes w' = nodes w /\ groupBoxes w' = groupBoxes w) /\
    (exists w'', addNodes (Some l) w' = ((w'', []), None) /\
                 nodes w'' = nodes w' /\ groupBoxes w'' = groupBoxes w').
Proof.
  intros Hpw Hpl. rewrite Forall_forall in Hpw, Hpl.
  assert (Hsame : forall a b : Node,
            n_port a = p -> n_port b = p -> n_address a = n_address b -> a = b).
  { intros [a1 a2] [b1 b2]. simpl. congruence. }
  assert (Hkey : forall n, In n l ->
            (In n (nodes w) <-> In (n_address n) (map n_address (nodes w)))).
  { intros n Hn. split; [apply in_map|].
    intros Ha. apply in_map_iff in Ha as (m & E & Hm).
    now rewrite <- (Hsame m n (Hpw m Hm) (Hpl n Hn) E). }
  assert (Hnew : forall n, In n (newly (nodes w) l) <->
            In n l /\ ~ In (n_address n) (map n_address (nodes w))).
  { intros n. rewrite newly_In. split; intros [H1 H2]; (split; [exact H1|]);
      now rewrite (Hkey n H1) in *. }
  assert (Hnd : NoDup (map n_address (newly (nodes w) l))).
  { apply Finite.Injective_map_NoDup_in; [|apply newly_NoDup].
    intros a b Ha Hb. apply Hnew in Ha as [Ha _]. apply Hnew in Hb as [Hb _].
    apply Hsame; auto. }
  eexists. exists (newly (nodes w) l).
  split; [apply addNodes_list|]. cbn [nodes groupBoxes made].
  split; [reflexivity|]. split; [reflexivity|].
  split; [apply make_boxes_nodes|]. split; [exact Hnew|]. split; [exact Hnd|].
  split; [|split].
  - intros Hw. rewrite map_app. apply NoDup_app; [exact Hw|exact Hnd|].
    intros a Ha Hb. apply in_map_iff in Hb as (n & <- & Hn).
    apply Hnew in Hn as [_ Hn]. contradiction.
  - intros Hknown. rewrite (newly_known (nodes w) l).
    + simpl. now rewrite !app_nil_r.
    + intros n Hn. apply (Hkey n Hn). now apply Hknown.
  - eexists. rewrite addNodes_list. cbn [nodes groupBoxes made].
    rewrite (newly_known (nodes w ++ newly (nodes w) l) l).
    + split; [reflexivity|]. simpl. now rewrite !app_nil_r.
    + intros n Hn. apply in_app_iff.
      destruct (contains node_eqb n (nodes w)) eqn:E.
      * left. now apply contains_In.
      * right. apply newly_In. split; [exact Hn|].
        intros H. apply contains_In in H. congruence.
Qed.

Lemma addNodes_dedups_on_address_witness :
  Forall (fun n => n_port n = 5000) (nodes two_nodes) /\
  Forall (fun n => n_port n = 5000) [nodeC; nodeA; nodeC] /\
  exists w' new,
    addNodes (Some [nodeC; nodeA; nodeC]) two_nodes = ((w', new), None) /\
    nodes w' = nodes two_nodes ++ new /\
    (forall n, In n new <->
               In n [nodeC; nodeA; nodeC] /\
               ~ In (n_address n) (map n_address (nodes two_nodes))) /\
    NoDup (map n_address new).
Proof.
  assert (H1 : Forall (fun n => n_port n = 5000) (nodes two_nodes))
    by (vm_compute; repeat constructor).
  assert (H2 : Forall (fun n => n_port n = 5000) [nodeC; nodeA; nodeC])
    by (repeat constructor).
  split; [exact H1|]. split; [exact H2|].
  destruct (addNodes_dedups_on_address 5000 [nodeC; nodeA; nodeC] two_nodes H1 H2)
    as (w' & new & Hrun & Hn & _ & _ & Hin & Hnd & _).
  exists w', new. auto.
Defined.

(** ** Command dispatch *)

Lemma removeGroupBox_length (g : GroupBox) (w : MainWindow) :
  (List.length (groupBoxes (fst (removeGroupBox g w))) <= List.length (groupBoxes w))%nat.
Proof.
  destruct (is_deleted g w) eqn:Ed; [now rewrite removeGroupBox_deleted|].
  destruct (listed g (groupBoxes w)) eqn:El.
  - destruct (listed_split g _ El) as (pre & x & post & Hl & Hx & Hpre).
    rewrite (removeGroupBox_listed g x pre post w Ed Hl Hpre Hx), Hl. simpl.
    rewrite !length_app. simpl. lia.
  - now rewrite removeGroupBox_unlisted.
Qed.

Lemma machineControl_body_length (net : Network) (command : string)
    (x : GroupBox) (st : MainWindow * list string) :
  (List.length (groupBoxes (fst (fst (machineControl_body net command x st))))
   <= List.length (groupBoxes (fst st)))%nat.
Proof.
  destruct st as [w posted]. unfold machineControl_body.
  destruct (checked x); cbn [fst]; [|lia].
  assert (Hlen : List.length (groupBoxes (on_widget (box_setDisabled true) x w))
                 = List.length (groupBoxes w)).
  { unfold on_widget. simpl. apply length_map. }
  destruct (http_post net (control_url x) command); cbn [fst]; [|lia].
  pose proof (removeGroupBox_length x (on_widget (box_setDisabled true) x w)) as H.
  destruct (removeGroupBox x (on_widget (box_setDisabled true) x w)) as [w2 [e|]];
    cbn [fst] in *; lia.
Qed.

Lemma machineControl_body_wf (net : Network) (command : string)
    (x : GroupBox) (st : MainWindow * list string) (j : nat) :
  registry_wf (fst st) ->
  nth_error (groupBoxes (fst st)) j = Some x ->
  registry_wf (fst (fst (machineControl_body net command x st))).
Proof.
  destruct st as [w posted]. simpl. intros Hw Hx.
  apply nth_error_In in Hx. unfold machineControl_body.
  destruct (checked x); simpl; [|exact Hw].
  assert (Hw1 : registry_wf (on_widget (box_setDisabled true) x w)).
  { apply wf_on_widget; [apply box_setDisabled_keeps|exact Hw]. }
  destruct (http_post net (control_url x) command); simpl; [|exact Hw1].
  assert (H : registry_wf (fst (removeGroupBox x (on_widget (box_setDisabled true) x w)))).
  { apply wf_removeGroupBox; [exact Hw1|].
    apply genuine_on_widget; [apply box_setDisabled_keeps|].
    now apply genuine_listed. }
  destruct (removeGroupBox x (on_widget (box_setDisabled true) x w)) as [w2 [e|]];
    exact H.
Qed.

(** [machineControl] reaches the end of its loop. *)
Lemma machineControl_returns (net : Network) (command : string) (w : MainWindow) :
  exists r, machineControl net command w = Some r.
Proof.
  unfold machineControl.
  destruct (Nat.eqb (List.length (groupBoxes w)) 0); [eauto|].
  set (w1 := disableGroupBoxes true (toolbar_setDisabled true w)).
  destruct (for_each_live_returns (machineControl_body net command) (fun _ => True)
              (fun st => groupBoxes (fst st)) (List.length (groupBoxes w1)) 0 (w1, []))
    as [[[w2 posted] [e|]] Hr].
  - intros x st0 j _ _. split; [exact I|apply machineControl_body_length].
  - exact I.
  - simpl. lia.
  - rewrite Hr. eauto.
  - rewrite Hr. eauto.
Qed.

Lemma wf_machineControl (net : Network) (command : string) (w : MainWindow)
    (r : (MainWindow * list string) * option PyExc) :
  registry_wf w -> machineControl net command w = Some r ->
  registry_wf (fst (fst r)).
Proof.
  intros Hw. unfold machineControl.
  destruct (Nat.eqb (List.length (groupBoxes w)) 0).
  - intros H. injection H as <-. exact Hw.
  - set (w1 := disableGroupBoxes true (toolbar_setDisabled true w)).
    assert (Hw1 : registry_wf w1).
    { unfold w1, disableGroupBoxes.
      apply (wf_map_boxes (box_setDisabled true) (toolbar_setDisabled true w));
        [apply box_setDisabled_keeps|exact Hw]. }
    pose proof (for_each_live_inv (machineControl_body net command)
                  (fun st => registry_wf (fst st)) (fun st => groupBoxes (fst st))
                  (List.length (groupBoxes w1)) 0 (w1, [])) as Hinv.
    destruct (for_each_live _ _ _ _ _) as [[[w2 posted] [e|]]|]; [| |discriminate].
    + intros H. injection H as <-.
      apply (Hinv _ (fun x st0 j => machineControl_body_wf net command x st0 j) Hw1 eq_refl).
    + intros H. injection H as <-. simpl.
      specialize (Hinv _ (fun x st0 j => machineControl_body_wf net command x st0 j)
                    Hw1 eq_refl). simpl in Hinv.
      apply (wf_flags _ false (window_disabled w2)).
      apply (wf_map_boxes (box_setDisabled false) w2);
        [apply box_setDisabled_keeps|exact Hinv].
Qed.

(** ** Name refresh *)

Lemma sorted_NoDup (l : list nat) : StronglySorted lt l -> NoDup l.
Proof.
  induction 1 as [|x l _ IH Hx]; constructor; [|exact IH].
  intros Hin. rewrite Forall_forall in Hx. specialize (Hx x Hin). lia.
Qed.

Lemma on_widget_at (f : GroupBox -> GroupBox) (g x : GroupBox)
    (l1 l2 : list GroupBox) (w : MainWindow) :
  groupBoxes w = l1 ++ x :: l2 ->
  NoDup (map gid (l1 ++ x :: l2)) ->
  gid g = gid x ->
  groupBoxes (on_widget f g w) = l1 ++ f x :: l2.
Proof.
  intros Hl Hnd Eg. unfold on_widget. simpl. rewrite Hl.
  rewrite map_app in Hnd. simpl in Hnd.
  apply NoDup_remove_2 in Hnd. rewrite in_app_iff in Hnd.
  assert (Hother : forall l, ~ In (gid x) (map gid l) ->
            map (fun y => if same_widget y g then f y else y) l = l).
  { intros l Hn. induction l as [|y l IH]; simpl; [reflexivity|].
    simpl in Hn. rewrite IH by tauto.
    destruct (same_widget y g) eqn:E; [|reflexivity].
    apply same_widget_eq in E. rewrite Eg in E. tauto. }
  rewrite map_app. simpl. rewrite !Hother by tauto.
  replace (same_widget x g) with true; [reflexivity|].
  symmetry. now apply same_widget_eq.
Qed.

Lemma refreshed_keeps (net : Network) (g : GroupBox) :
  gid (refreshed net g) = gid g /\ address (refreshed net g) = address g.
Proof. unfold refreshed. destruct (http_get_json net (name_url g)); split; reflexivity. Qed.

Lemma checkNodeName_loop (net : Network) (post pre : list GroupBox)
    (w : MainWindow) (fuel : nat) :
  groupBoxes w = map (refreshed net) pre ++ post ->
  NoDup (map gid (pre ++ post)) ->
  Forall (fun g => ~ In (gid g) (deleted w)) post ->
  (List.length post <= fuel)%nat ->
  for_each_live (checkNodeName_body net) groupBoxes fuel (List.length pre) w =
    Some (with_groupBoxes (map (refreshed net) (pre ++ post)) w, None).
Proof.
  revert pre w fuel.
  induction post as [|x post IH]; intros pre w fuel Hl Hnd Hal Hfuel.
  - assert (Hnone : nth_error (groupBoxes w) (List.length pre) = None).
    { apply nth_error_None. rewrite Hl, app_nil_r, length_map. lia. }
    assert (Hw : with_groupBoxes (map (refreshed net) (pre ++ [])) w = w).
    { rewrite app_nil_r in *. rewrite <- Hl. now destruct w. }
    rewrite Hw. destruct fuel; simpl; now rewrite Hnone.
  - destruct fuel as [|fuel]; [simpl in Hfuel; lia|].
    assert (Hsome : nth_error (groupBoxes w) (List.length pre) = Some x).
    { rewrite Hl, nth_error_app2; rewrite length_map; [|lia].
      now rewrite Nat.sub_diag. }
    simpl. rewrite Hsome.
    assert (Hnd' : NoDup (map gid (map (refreshed net) pre ++ x :: post))).
    { rewrite map_app, map_map.
      rewrite (map_ext (fun y => gid (refreshed net y)) gid)
        by (intros; apply refreshed_keeps).
      now rewrite <- map_app. }
    inversion Hal as [|? ? Hx Hal']; subst.
    assert (Hd : is_deleted x w = false).
    { destruct (is_deleted x w) eqn:Ed; [|reflexivity].
      apply is_deleted_In in Ed. contradiction. }
    assert (Hstep : exists w1,
              checkNodeName_body net x w = (w1, None) /\
              groupBoxes w1 = map (refreshed net) (pre ++ [x]) ++ post /\
              deleted w1 = deleted w /\
              with_groupBoxes (map (refreshed net) ((pre ++ [x]) ++ post)) w1 =
              with_groupBoxes (map (refreshed net) (pre ++ x :: post)) w).
    { unfold checkNodeName_body, updateNodeName. rewrite Hd.
      destruct (http_get_json net (name_url x)) as [name|] eqn:E.
      - eexists. split; [reflexivity|]. split; [|split].
        + rewrite (on_widget_at _ x x _ _ w Hl Hnd' eq_refl).
          rewrite map_app, <- app_assoc. simpl. unfold refreshed at 3.
          now rewrite E.
        + reflexivity.
        + rewrite <- app_assoc. reflexivity.
      - eexists. split; [reflexivity|]. split; [|split].
        + rewrite Hl, map_app, <- app_assoc. simpl. unfold refreshed at 3.
          now rewrite E.
        + reflexivity.
        + rewrite <- app_assoc. reflexivity. }
    destruct Hstep as (w1 & -> & Hl1 & Hd1 & Hw1).
    replace (Datatypes.S (List.length pre)) with (List.length (pre ++ [x]))
      by (rewrite length_app; simpl; lia).
    rewrite (IH (pre ++ [x]) w1 fuel Hl1).
    + now rewrite Hw1.
    + now rewrite <- app_assoc.
    + now rewrite Hd1.
    + simpl in Hfuel. lia.
Qed.

(** One refresh cycle, in full. *)
Lemma checkNodeName_cycle_spec (net : Network) (w : MainWindow) :
  registry_wf w ->
  checkNodeName_cycle net w =
    Some (with_groupBoxes (map (refreshed net) (groupBoxes w)) w, None).
Proof.
  intros (Hs & _ & _ & _ & Ha). unfold checkNodeName_cycle.
  apply (checkNodeName_loop net (groupBoxes w) [] w (List.length (groupBoxes w)));
    [reflexivity|now apply sorted_NoDup| |lia].
  eapply Forall_impl; [|exact Ha]. simpl. intros g Hg Hin. apply Hg.
  apply in_or_app. now right.
Qed.

(** C8.  One refresh cycle returns without raising and has visited
    every group box: where the name endpoint answered, the name label
    shows the answer; where the request failed, the group box is as it
    was; nothing else in the window changes. *)
Theorem checkNodeName_isolates_failures (net : Network) (w : MainWindow) :
  registry_wf w ->
  exists w',
    checkNodeName_cycle net w = Some (w', None) /\
    nodes w' = nodes w /\
    groupBoxes w' = map (refreshed net) (groupBoxes w) /\
    Forall (fun g =>
              (forall name, http_get_json net (name_url g) = Some name ->
                            refreshed net g = box_setText name g) /\
              (http_get_json net (name_url g) = None -> refreshed net g = g))
           (groupBoxes w).
Proof.
  intros Hw. eexists. split; [now apply checkNodeName_cycle_spec|].
  split; [reflexivity|]. split; [reflexivity|].
  apply Forall_forall. intros g _. unfold refreshed.
  destruct (http_get_json net (name_url g)); split; congruence.
Qed.

(** ** Clearing the list *)

Lemma clear_loop (l : list GroupBox) (w : MainWindow) :
  groupBoxes w = l -> registry_wf w ->
  exists w',
    for_each removeGroupBox l w = (w', None) /\
    groupBoxes w' = [] /\ registry_wf w' /\
    toolbar_disabled w' = toolbar_disabled w /\
    window_disabled w' = window_disabled w /\
    made w' = made w /\
    pending_delete w' = queued l (pending_delete w) /\
    deleted w' = deleted w.
Proof.
  revert w. induction l as [|g rest IH]; intros w Hl Hw; simpl.
  - exists w. split; [reflexivity|]. split; [exact Hl|]. split; [exact Hw|].
    repeat split.
  - assert (Hg : genuine g w).
    { apply genuine_listed; [exact Hw|]. rewrite Hl. now left. }
    pose proof (wf_removeGroupBox g w Hw Hg) as Hw1.
    assert (Hsame : same_widget g g = true) by now apply same_widget_eq.
    assert (Hal : is_deleted g w = false).
    { apply listed_alive; [exact Hw|]. apply In_listed. rewrite Hl. now left. }
    rewrite (removeGroupBox_listed g g [] rest w Hal Hl (Forall_nil _) Hsame) in *.
    simpl in Hw1.
    destruct (IH (mkMainWindow (remove_first_addr (address g) (nodes w)) rest
                               (toolbar_disabled w) (window_disabled w) (made w)
                               (gid g :: pending_delete w) (deleted w))
                 eq_refl Hw1) as (w' & Hrun & Hnil & Hw' & Ht & Hd & Hm & Hq & Hx).
    exists w'. simpl in *. split; [exact Hrun|]. split; [exact Hnil|].
    split; [exact Hw'|]. repeat split; assumption.
Qed.

(** [clearList], in full. *)
Lemma clearList_spec (w : MainWindow) :
  registry_wf w ->
  clearList w =
    (mkMainWindow [] [] false (window_disabled w) (made w)
                  (queued (groupBoxes w) (pending_delete w)) (deleted w), None).
Proof.
  intros Hw. unfold clearList.
  destruct (clear_loop (groupBoxes (toolbar_setDisabled true w))
              (toolbar_setDisabled true w) eq_refl Hw)
    as (w' & Hrun & Hnil & (_ & _ & Hp & _) & Ht & Hd & Hm & Hq & Hx).
  rewrite Hrun. rewrite Hnil in Hp. simpl in Hp.
  apply Permutation_sym, Permutation_nil, map_eq_nil in Hp.
  destruct w'. simpl in *. subst. reflexivity.
Qed.

(** ** Histories *)

Lemma widget_genuine (k : nat) (w : MainWindow) :
  registry_wf w -> genuine (widget k w) w.
Proof.
  intros Hw. unfold widget.
  destruct (find (fun x => Nat.eqb (gid x) k) (groupBoxes w)) as [g|] eqn:E.
  - apply find_some in E as [Hin _]. now apply genuine_listed.
  - intros x Hx Ex. simpl in Ex.
    pose proof (find_none _ _ E x Hx) as Hn. simpl in Hn.
    apply Nat.eqb_neq in Hn. contradiction.
Qed.

Lemma wf_clearList (w : MainWindow) :
  registry_wf w -> registry_wf (fst (clearList w)).
Proof.
  intros Hw. unfold clearList.
  destruct (clear_loop (groupBoxes (toolbar_setDisabled true w))
              (toolbar_setDisabled true w) eq_refl Hw)
    as (w' & Hrun & _ & Hw' & _).
  rewrite Hrun. exact Hw'.
Qed.

(** Deleting the widgets that await it keeps the invariant. *)
Lemma wf_event_loop (w : MainWindow) :
  registry_wf w -> registry_wf (event_loop w).
Proof. intros H. exact H. Qed.

(** Every handler keeps the invariant. *)
Lemma wf_handle (w : MainWindow) (ev : Event) :
  registry_wf w -> registry_wf (handle w ev).
Proof.
  intros Hw. destruct ev as [arg|k|k state|state|net command|net| |]; simpl.
  - now apply wf_addNodes.
  - apply wf_removeGroupBox; [exact Hw|now apply widget_genuine].
  - apply wf_on_widget; [apply box_setChecked_keeps|exact Hw].
  - apply (wf_map_boxes (box_setChecked state) w);
      [apply box_setChecked_keeps|exact Hw].
  - destruct (machineControl net command w) as [[st e]|] eqn:E; [|exact Hw].
    apply (wf_machineControl net command w (st, e) Hw E).
  - rewrite (checkNodeName_cycle_spec net w Hw).
    apply wf_map_boxes; [apply refreshed_keeps|exact Hw].
  - now apply wf_clearList.
  - exact Hw.
Qed.

(** Every event keeps the invariant. *)
Lemma wf_react (w : MainWindow) (ev : Event) :
  registry_wf w -> registry_wf (react w ev).
Proof. intros Hw. apply wf_event_loop. now apply wf_handle. Qed.

(** The invariant holds after every history. *)
Lemma wf_run (history : list Event) : registry_wf (run history).
Proof.
  unfold run. rewrite <- fold_left_rev_right.
  induction (rev history) as [|ev h IH]; simpl.
  - apply wf_init.
  - now apply wf_react.
Qed.





(** C10.  [clearList] returns without raising and leaves no group box
    and no node, whatever was selected and however the entries came to
    be there. *)
Theorem clearList_empties_registry (w : MainWindow) :
  registry_wf w ->
  exists w',
    clearList w = (w', None) /\
    groupBoxes w' = [] /\ nodes w' = [] /\
    toolbar_disabled w' = false.
Proof.
  intros Hw. eexists. split; [now apply clearList_spec|]. repeat split.
Qed.

Lemma clearList_empties_registry_witness :
  registry_wf three_nodes /\
  exists w',
    clearList three_nodes = (w', None) /\
    groupBoxes w' = [] /\ nodes w' = [] /\
    toolbar_disabled w' = false.
Proof.
  split; [apply wf_run|].
  apply (clearList_empties_registry three_nodes). apply wf_run.
Defined.

Lemma checkNodeName_isolates_failures_witness :
  registry_wf two_nodes /\
  exists w',
    checkNodeName_cycle lan two_nodes = Some (w', None) /\
    map nameLabel (groupBoxes w') = ["server-1"; "—"].
Proof.
  split; [apply wf_run|].
  destruct (checkNodeName_isolates_failures lan two_nodes (wf_run _))
    as (w' & Hrun & _ & Hboxes & _).
  exists w'. split; [exact Hrun|]. rewrite Hboxes. reflexivity.
Defined.

(** C3.  After every history of events the group boxes are listed in
    the order in which they were made: a merge puts the boxes of the
    newly added nodes after all the others, in arrival order, and a
    removal takes one box out and leaves the others in place.  A node
    that is removed and found again is a new node.  Merging
    10.0.0.5, 10.0.0.2, 10.0.0.9 lists them in that order, in one scan
    or in three, and a later scan that finds them in another order
    does not change it. *)
Theorem registry_keeps_insertion_order (history : list Event) :
  StronglySorted lt (map gid (groupBoxes (run history))) /\
  Forall (fun g => (gid g < made (run history))%nat) (groupBoxes (run history)) /\
  (forall l,
     groupBoxes (react (run history) (EvActiveNodes (Some l))) =
       groupBoxes (run history)
       ++ make_boxes (made (run history)) (newly (nodes (run history)) l)) /\
  (forall k, exists pre mid post,
     groupBoxes (run history) = pre ++ mid ++ post /\
     groupBoxes (react (run history) (EvRemoveClicked k)) = pre ++ post /\
     (List.length mid <= 1)%nat) /\
  map address (groupBoxes (run [EvActiveNodes (Some [nodeA; nodeB; nodeC])]))
    = ["10.0.0.5"; "10.0.0.2"; "10.0.0.9"] /\
  map address (groupBoxes (run [EvActiveNodes (Some [nodeA]);
                                EvActiveNodes (Some [nodeB]);
                                EvActiveNodes (Some [nodeC]);
                                EvActiveNodes (Some [nodeC; nodeB; nodeA])]))
    = ["10.0.0.5"; "10.0.0.2"; "10.0.0.9"].
Proof.
  pose proof (wf_run history) as Hw. destruct (wf_run history) as (Hs & Hm & _).
  split; [exact Hs|]. split; [exact Hm|]. split; [|split; [|split; reflexivity]].
  - intros l. unfold react. cbn [event_loop groupBoxes handle activeNodes_delivers].
    now rewrite addNodes_list.
  - intros k. unfold react. cbn [event_loop groupBoxes handle].
    set (w := run history) in *. set (g := widget k w).
    destruct (listed g (groupBoxes w)) eqn:El.
    + destruct (listed_split g _ El) as (pre & x & post & Hl & Hx & Hpre).
      exists pre, [x], post.
      rewrite (removeGroupBox_listed g x pre post w (listed_alive g w Hw El)
                 Hl Hpre Hx).
      repeat split; auto.
    + exists (groupBoxes w), [], [].
      destruct (is_deleted g w) eqn:Ed.
      * rewrite (removeGroupBox_deleted g w Ed).
        cbn [fst app]. rewrite !app_nil_r. repeat split; auto.
      * rewrite (removeGroupBox_unlisted g w Ed El).
        cbn [fst app]. rewrite !app_nil_r. repeat split; auto.
Qed.

(** C1, on the code.  On the three nodes A, B, C with A and C
    selected, A accepting the command and C failing, the dispatch posts
    to A and to C, removes A and leaves B (unselected) and C (still
    selected).  On two selected nodes that both accept the command, the
    loop over the list it is removing from posts to the first one only:
    the second is never sent the command and stays, selected. *)
Theorem machineControl_skips_after_removal :
  (exists w',
     machineControl lan "reboot" three_nodes
       = Some ((w', ["http://10.0.0.5:5000/machine-control";
                     "http://10.0.0.9:5000/machine-control"]), None) /\
     map box_node (groupBoxes w') = [nodeB; nodeC] /\
     map checked (groupBoxes w') = [false; true] /\
     nodes w' = [nodeB; nodeC]) /\
  (exists w',
     map checked (groupBoxes two_selected) = [true; true] /\
     machineControl quiet_lan "reboot" two_selected
       = Some ((w', ["http://10.0.0.5:5000/machine-control"]), None) /\
     map box_node (groupBoxes w') = [nodeB] /\
     map checked (groupBoxes w') = [true] /\
     nodes w' = [nodeB]).
Proof.
  split; eexists; repeat split; reflexivity.
Qed.

(** ** What a dispatch does, box by box *)

Section LiveSteps.

Context {S A : Type}.
Variable body : A -> S -> S * option PyExc.
Variable items : S -> list A.

Lemma for_each_live_end (fuel i : nat) (st : S) :
  nth_error (items st) i = None ->
  for_each_live body items fuel i st = Some (st, None).
Proof. intros H. destruct fuel; simpl; now rewrite H. Qed.

Lemma for_each_live_step (fuel i : nat) (st : S) (x : A) :
  nth_error (items st) i = Some x ->
  for_each_live body items (Datatypes.S fuel) i st =
    match body x st with
    | (st1, Some e) => Some (st1, Some e)
    | (st1, None) => for_each_live body items fuel (Datatypes.S i) st1
    end.
Proof. intros H. simpl. now rewrite H. Qed.

End LiveSteps.

(** Lists are handled two elements at a time by [dispatch_plan]. *)
Lemma list_ind_skip {A : Type} (P : list A -> Prop) :
  P [] ->
  (forall g rest, P rest -> (forall h rest', rest = h :: rest' -> P rest') ->
                  P (g :: rest)) ->
  forall l, P l.
Proof.
  intros Hnil Hcons l.
  assert (H : P l /\ (forall h rest', l = h :: rest' -> P rest')).
  { induction l as [|g rest [IH1 IH2]].
    - split; [exact Hnil|]. intros h rest' E. discriminate.
    - split; [now apply Hcons|]. intros h rest' E. injection E as _ <-. exact IH1. }
  apply H.
Qed.

Lemma box_setDisabled_true_id (g : GroupBox) :
  disabled g = true -> box_setDisabled true g = g.
Proof. destruct g. simpl. now intros ->. Qed.

Lemma on_widget_disabled_id (g : GroupBox) (w : MainWindow) :
  Forall (fun x => disabled x = true) (groupBoxes w) ->
  on_widget (box_setDisabled true) g w = w.
Proof.
  intros H. unfold on_widget, with_groupBoxes.
  replace (map _ (groupBoxes w)) with (groupBoxes w); [now destruct w|].
  rewrite <- (map_id (groupBoxes w)) at 1. apply map_ext_in.
  intros x Hx. rewrite Forall_forall in H.
  destruct (same_widget x g); [|reflexivity].
  symmetry. now apply box_setDisabled_true_id, H.
Qed.

Section Dispatch.

Variable net : Network.
Variable command : string.

Lemma body_unchecked (g : GroupBox) (w : MainWindow) (posted : list string) :
  checked g = false ->
  machineControl_body net command g (w, posted) = ((w, posted), None).
Proof. intros H. unfold machineControl_body. now rewrite H. Qed.

Lemma body_failed (g : GroupBox) (w : MainWindow) (posted : list string) :
  checked g = true -> http_post net (control_url g) command = false ->
  Forall (fun x => disabled x = true) (groupBoxes w) ->
  machineControl_body net command g (w, posted)
  = ((w, posted ++ [control_url g]), None).
Proof.
  intros Hc Hp Hd. unfold machineControl_body.
  now rewrite Hc, Hp, (on_widget_disabled_id g w Hd).
Qed.

Lemma body_removed (g : GroupBox) (kept rest : list GroupBox)
    (w : MainWindow) (posted : list string) :
  checked g = true -> http_post net (control_url g) command = true ->
  Forall (fun x => disabled x = true) (groupBoxes w) ->
  groupBoxes w = kept ++ g :: rest ->
  NoDup (map gid (kept ++ g :: rest)) ->
  ~ In (gid g) (deleted w) ->
  machineControl_body net command g (w, posted)
  = ((mkMainWindow (remove_first_addr (address g) (nodes w)) (kept ++ rest)
                   (toolbar_disabled w) (window_disabled w) (made w)
                   (gid g :: pending_delete w) (deleted w),
      posted ++ [control_url g]), None).
Proof.
  intros Hc Hp Hd Hl Hnd Hal. unfold machineControl_body.
  rewrite Hc, Hp, (on_widget_disabled_id g w Hd).
  assert (Hal' : is_deleted g w = false).
  { destruct (is_deleted g w) eqn:Ed; [|reflexivity].
    apply is_deleted_In in Ed. contradiction. }
  rewrite (removeGroupBox_listed g g kept rest w Hal' Hl).
  - reflexivity.
  - rewrite map_app in Hnd. simpl in Hnd. apply NoDup_remove_2 in Hnd.
    apply Forall_forall. intros z Hz.
    destruct (same_widget z g) eqn:E; [|reflexivity].
    apply same_widget_eq in E. exfalso. apply Hnd, in_app_iff. left.
    rewrite <- E. now apply in_map.
  - now apply same_widget_eq.
Qed.

(** The loop of [machineControl] from any position of its list. *)
Lemma machineControl_loop (n : nat) :
  forall (rem kept : list GroupBox) (w : MainWindow) (posted : list string)
         (fuel : nat),
    (List.length rem <= n)%nat ->
    groupBoxes w = kept ++ rem ->
    NoDup (map gid (kept ++ rem)) ->
    Forall (fun x => disabled x = true) (kept ++ rem) ->
    Forall (fun x => ~ In (gid x) (deleted w)) rem ->
    (List.length rem <= fuel)%nat ->
    for_each_live (machineControl_body net command)
                  (fun st => groupBoxes (fst st)) fuel (List.length kept) (w, posted)
    = Some ((mkMainWindow
               (forget (snd (fst (dispatch_plan net command rem))) (nodes w))
               (kept ++ fst (fst (dispatch_plan net command rem)))
               (toolbar_disabled w) (window_disabled w) (made w)
               (queued (snd (fst (dispatch_plan net command rem)))
                       (pending_delete w))
               (deleted w),
             posted ++ snd (dispatch_plan net command rem)), None).
Proof.
  assert (Hend : forall kept w posted fuel,
            groupBoxes w = kept ++ [] ->
            for_each_live (machineControl_body net command)
              (fun st => groupBoxes (fst st)) fuel (List.length kept) (w, posted)
            = Some ((mkMainWindow (nodes w) (kept ++ [])
                       (toolbar_disabled w) (window_disabled w) (made w)
                       (pending_delete w) (deleted w),
                     posted ++ []), None)).
  { intros kept w posted fuel Hl. rewrite for_each_live_end.
    - rewrite <- Hl, app_nil_r. now destruct w.
    - cbn [fst]. apply nth_error_None. rewrite Hl, app_nil_r. lia. }
  induction n as [|n IH]; intros rem kept w posted fuel Hn Hl Hnd Hd Hal Hfuel.
  - destruct rem; [|simpl in Hn; lia]. now apply Hend.
  - destruct rem as [|g rest]; [now apply Hend|].
    destruct fuel as [|fuel]; [simpl in Hfuel; lia|].
    assert (Hnth : nth_error (groupBoxes w) (List.length kept) = Some g).
    { rewrite Hl, nth_error_app2 by lia. now rewrite Nat.sub_diag. }
    assert (Hdw : Forall (fun x => disabled x = true) (groupBoxes w))
      by now rewrite Hl.
    assert (Hsnoc : forall x l, kept ++ x :: l = (kept ++ [x]) ++ l)
      by (intros; now rewrite <- app_assoc).
    assert (Hlen : forall x, Datatypes.S (List.length kept) = List.length (kept ++ [x]))
      by (intros; rewrite length_app; simpl; lia).
    rewrite (for_each_live_step _ _ fuel (List.length kept) (w, posted) g Hnth).
    simpl in Hn, Hfuel. cbn [dispatch_plan].
    inversion Hal as [|? ? Hg Hal']; subst.
    destruct (checked g) eqn:Ec.
    + destruct (http_post net (control_url g) command) eqn:Ep.
      * rewrite (body_removed g kept rest w posted Ec Ep Hdw Hl Hnd Hg).
        assert (Hnd2 : NoDup (map gid (kept ++ rest))).
        { rewrite map_app in *. simpl in Hnd. now apply NoDup_remove_1 in Hnd. }
        assert (Hd2 : Forall (fun x => disabled x = true) (kept ++ rest)).
        { apply Forall_app in Hd as [H1 H2]. apply Forall_app. split; [exact H1|].
          now inversion H2. }
        destruct rest as [|h rest'].
        { rewrite for_each_live_end.
          - reflexivity.
          - cbn [fst groupBoxes]. apply nth_error_None.
            rewrite app_nil_r. lia. }
        rewrite (Hlen h), (Hsnoc h rest') in *.
        rewrite (IH rest' (kept ++ [h])); cbn [groupBoxes nodes deleted]; auto;
          try (simpl in *; lia); [|now inversion Hal'].
        destruct (dispatch_plan net command rest') as [[k r] p].
        cbn [fst snd forget queued fold_left toolbar_disabled window_disabled
             made pending_delete deleted].
        now rewrite <- !app_assoc.
      * rewrite (body_failed g w posted Ec Ep Hdw).
        rewrite (Hlen g), (Hsnoc g rest) in *.
        rewrite (IH rest (kept ++ [g])); auto; try lia.
        destruct (dispatch_plan net command rest) as [[k r] p].
        cbn [fst snd]. now rewrite <- !app_assoc.
    + rewrite (body_unchecked g w posted Ec).
      rewrite (Hlen g), (Hsnoc g rest) in *.
      rewrite (IH rest (kept ++ [g])); auto; try lia.
      destruct (dispatch_plan net command rest) as [[k r] p].
      cbn [fst snd]. now rewrite <- !app_assoc.
Qed.

End Dispatch.

Section DispatchPlan.

Variable net : Network.
Variable command : string.

Lemma dispatch_plan_map (f : GroupBox -> GroupBox) (l : list GroupBox) :
  (forall g, checked (f g) = checked g /\ control_url (f g) = control_url g) ->
  dispatch_plan net command (map f l) =
    ((map f (fst (fst (dispatch_plan net command l))),
      map f (snd (fst (dispatch_plan net command l)))),
     snd (dispatch_plan net command l)).
Proof.
  intros Hf. induction l as [|g rest IH1 IH2] using list_ind_skip; [reflexivity|].
  cbn [map dispatch_plan].
  destruct (Hf g) as [-> ->].
  destruct (checked g); [destruct (http_post net (control_url g) command)|].
  - destruct rest as [|h rest']; [reflexivity|].
    cbn [map]. rewrite (IH2 h rest' eq_refl).
    now destruct (dispatch_plan net command rest') as [[k r] p].
  - rewrite IH1. now destruct (dispatch_plan net command rest) as [[k r] p].
  - rewrite IH1. now destruct (dispatch_plan net command rest) as [[k r] p].
Qed.

Lemma forget_map (f : GroupBox -> GroupBox) (r : list GroupBox) (ns : list Node) :
  (forall g, address (f g) = address g) ->
  forget (map f r) ns = forget r ns.
Proof.
  intros Hf. unfold forget. revert ns.
  induction r as [|g r IH]; intros ns; simpl; [reflexivity|].
  now rewrite Hf, IH.
Qed.

Lemma queued_map (f : GroupBox -> GroupBox) (r : list GroupBox) (p : list nat) :
  (forall g, gid (f g) = gid g) ->
  queued (map f r) p = queued r p.
Proof.
  intros Hf. unfold queued. revert p.
  induction r as [|g r IH]; intros p; simpl; [reflexivity|].
  now rewrite Hf, IH.
Qed.

(** Every box of the list is kept or removed, once. *)
Lemma dispatch_plan_partition (l : list GroupBox) :
  Permutation l (fst (fst (dispatch_plan net command l))
                 ++ snd (fst (dispatch_plan net command l))).
Proof.
  induction l as [|g rest IH1 IH2] using list_ind_skip; [reflexivity|].
  cbn [dispatch_plan].
  destruct (checked g); [destruct (http_post net (control_url g) command)|].
  - destruct rest as [|h rest']; [reflexivity|].
    specialize (IH2 h rest' eq_refl).
    destruct (dispatch_plan net command rest') as [[k r] p]. cbn [fst snd] in *.
    rewrite perm_swap. simpl. apply perm_skip.
    rewrite <- Permutation_middle. now apply perm_skip.
  - destruct (dispatch_plan net command rest) as [[k r] p]. cbn [fst snd] in *.
    simpl. now apply perm_skip.
  - destruct (dispatch_plan net command rest) as [[k r] p]. cbn [fst snd] in *.
    simpl. now apply perm_skip.
Qed.

(** Only selected boxes whose POST completed are removed. *)
Lemma dispatch_plan_removed (l : list GroupBox) :
  Forall (fun g => checked g = true /\
                   http_post net (control_url g) command = true)
         (snd (fst (dispatch_plan net command l))).
Proof.
  induction l as [|g rest IH1 IH2] using list_ind_skip; [constructor|].
  cbn [dispatch_plan].
  destruct (checked g) eqn:Ec;
    [destruct (http_post net (control_url g) command) eqn:Ep|].
  - destruct rest as [|h rest']; [repeat constructor; assumption|].
    specialize (IH2 h rest' eq_refl).
    destruct (dispatch_plan net command rest') as [[k r] p]. cbn [fst snd] in *.
    constructor; [split; assumption|exact IH2].
  - now destruct (dispatch_plan net command rest) as [[k r] p].
  - now destruct (dispatch_plan net command rest) as [[k r] p].
Qed.

(** Every URL posted to is that of a selected box of the list, and the
    URL of every removed box was posted to. *)
Lemma dispatch_plan_posted (l : list GroupBox) :
  Forall (fun u => exists g, In g l /\ checked g = true /\ u = control_url g)
         (snd (dispatch_plan net command l)) /\
  incl (map control_url (snd (fst (dispatch_plan net command l))))
       (snd (dispatch_plan net command l)).
Proof.
  induction l as [|g rest IH1 IH2] using list_ind_skip.
  - split; [constructor|]. intros u [].
  - cbn [dispatch_plan].
    assert (Hweak : forall (l1 l2 : list GroupBox) (p : list string),
              incl l1 l2 ->
              Forall (fun u => exists g, In g l1 /\ checked g = true /\ u = control_url g) p ->
              Forall (fun u => exists g, In g l2 /\ checked g = true /\ u = control_url g) p).
    { intros l1 l2 p Hi H. eapply Forall_impl; [|exact H].
      intros u (x & Hx & Hc & ->). exists x. auto. }
    destruct (checked g) eqn:Ec;
      [destruct (http_post net (control_url g) command) eqn:Ep|].
    + destruct rest as [|h rest'].
      * split; [|apply incl_refl]. constructor; [|constructor].
        exists g. repeat split; auto. now left.
      * destruct (IH2 h rest' eq_refl) as [H1 H2].
        destruct (dispatch_plan net command rest') as [[k r] p]. cbn [fst snd] in *.
        split.
        -- constructor; [exists g; repeat split; auto; now left|].
           apply (Hweak rest'); [|exact H1]. intros x Hx. right. now right.
        -- simpl. intros u [<-|Hu]; [now left|right; now apply H2].
    + destruct IH1 as [H1 H2].
      destruct (dispatch_plan net command rest) as [[k r] p]. cbn [fst snd] in *.
      split.
      * constructor; [exists g; repeat split; auto; now left|].
        apply (Hweak rest); [|exact H1]. intros x Hx. now right.
      * intros u Hu. right. now apply H2.
    + destruct IH1 as [H1 H2].
      destruct (dispatch_plan net command rest) as [[k r] p]. cbn [fst snd] in *.
      split; [|exact H2].
      apply (Hweak rest); [|exact H1]. intros x Hx. now right.
Qed.

(** With no box selected nothing is removed and nothing is posted. *)
Lemma dispatch_plan_none_selected (l : list GroupBox) :
  Forall (fun g => checked g = false) l ->
  dispatch_plan net command l = ((l, []), []).
Proof.
  induction 1 as [|g rest Hg _ IH]; [reflexivity|].
  cbn [dispatch_plan]. now rewrite Hg, IH.
Qed.

(** [machineControl], in full. *)
Lemma machineControl_spec (w : MainWindow) :
  registry_wf w ->
  machineControl net command w =
    match groupBoxes w with
    | [] => Some ((w, []), None)
    | _ :: _ =>
        Some ((mkMainWindow
                 (forget (snd (fst (dispatch_plan net command (groupBoxes w))))
                         (nodes w))
                 (map (box_setDisabled false)
                      (fst (fst (dispatch_plan net command (groupBoxes w)))))
                 false (window_disabled w) (made w)
                 (queued (snd (fst (dispatch_plan net command (groupBoxes w))))
                         (pending_delete w))
                 (deleted w),
               snd (dispatch_plan net command (groupBoxes w))), None)
    end.
Proof.
  intros (Hs & _ & _ & _ & Ha). unfold machineControl.
  destruct (groupBoxes w) as [|g0 l0] eqn:El; [reflexivity|].
  rewrite <- El. replace (Nat.eqb _ 0) with false by (now rewrite El).
  set (w1 := disableGroupBoxes true (toolbar_setDisabled true w)).
  assert (Hl1 : groupBoxes w1 = map (box_setDisabled true) (groupBoxes w))
    by reflexivity.
  rewrite (machineControl_loop net command (List.length (groupBoxes w1))
             (groupBoxes w1) [] w1 []); auto.
  - rewrite Hl1, (dispatch_plan_map (box_setDisabled true));
      [|intros; split; reflexivity].
    cbn [fst snd app].
    rewrite (forget_map (box_setDisabled true)) by reflexivity.
    rewrite (queued_map (box_setDisabled true)) by reflexivity.
    unfold toolbar_setDisabled, disableGroupBoxes, with_groupBoxes.
    cbn [nodes groupBoxes toolbar_disabled window_disabled made
         pending_delete deleted].
    rewrite map_map. reflexivity.
  - cbn [app]. rewrite Hl1, map_map.
    rewrite (map_ext (fun x => gid (box_setDisabled true x)) gid) by reflexivity.
    rewrite El. now apply sorted_NoDup.
  - cbn [app]. rewrite Hl1. apply Forall_map, Forall_forall. reflexivity.
  - rewrite Hl1, El. apply Forall_map. eapply Forall_impl; [|exact Ha].
    intros x Hx Hin. apply Hx, in_or_app. now right.
Qed.

End DispatchPlan.

(** ** Properties of the dispatch *)

(** A dispatch always returns, without raising: each group box is
    either still listed afterwards or was removed, the removed ones
    were all selected and their POST completed, and the POSTs went
    only to selected boxes, among them every removed one.  The node
    list loses the first node at the address of each removed box. *)
Theorem machineControl_outcome (net : Network) (command : string) (w : MainWindow) :
  registry_wf w ->
  exists w' posted removed,
    machineControl net command w = Some ((w', posted), None) /\
    Permutation (map (box_setDisabled false) (groupBoxes w))
                (groupBoxes w' ++ map (box_setDisabled false) removed) /\
    Forall (fun g => In g (groupBoxes w) /\ checked g = true /\
                     http_post net (control_url g) command = true) removed /\
    Forall (fun u => exists g, In g (groupBoxes w) /\ checked g = true /\
                               u = control_url g) posted /\
    incl (map control_url removed) posted /\
    nodes w' = forget removed (nodes w) /\
    made w' = made w.
Proof.
  intros Hw. rewrite (machineControl_spec net command w Hw).
  destruct (groupBoxes w) as [|g0 l0] eqn:El.
  - exists w, [], []. rewrite El. repeat split; auto; try constructor.
    intros u [].
  - rewrite <- El.
    pose proof (dispatch_plan_partition net command (groupBoxes w)) as Hperm.
    pose proof (dispatch_plan_removed net command (groupBoxes w)) as Hrem.
    destruct (dispatch_plan_posted net command (groupBoxes w)) as [Hpost Hincl].
    destruct (dispatch_plan net command (groupBoxes w)) as [[k r] p].
    cbn [fst snd] in *.
    eexists. exists p, r. split; [reflexivity|]. cbn [groupBoxes nodes made].
    split; [rewrite <- map_app; now apply Permutation_map|].
    split; [|repeat split; auto].
    apply Forall_forall. intros g Hg. rewrite Forall_forall in Hrem.
    split; [|now apply Hrem].
    apply (Permutation_in _ (Permutation_sym Hperm)), in_app_iff. now right.
Qed.

Lemma machineControl_outcome_witness :
  registry_wf three_nodes /\
  exists w' posted removed,
    machineControl lan "shutdown" three_nodes = Some ((w', posted), None) /\
    Permutation (map (box_setDisabled false) (groupBoxes three_nodes))
                (groupBoxes w' ++ map (box_setDisabled false) removed) /\
    nodes w' = forget removed (nodes three_nodes).
Proof.
  split; [apply wf_run|].
  destruct (machineControl_outcome lan "shutdown" three_nodes (wf_run _))
    as (w' & posted & removed & H1 & H2 & _ & _ & _ & H3 & _).
  exists w', posted, removed. auto.
Defined.

(** A dispatch never removes a box that is not selected or whose POST
    failed: it is listed afterwards, enabled, with its selection, name,
    address and port as before. *)
Theorem machineControl_keeps_unselected_and_failed
    (net : Network) (command : string) (w : MainWindow) (g : GroupBox) :
  registry_wf w ->
  In g (groupBoxes w) ->
  accepts net command g = false ->
  exists w' posted,
    machineControl net command w = Some ((w', posted), None) /\
    In (box_setDisabled false g) (groupBoxes w').
Proof.
  intros Hw Hg Hacc. rewrite (machineControl_spec net command w Hw).
  pose proof (dispatch_plan_partition net command (groupBoxes w)) as Hperm.
  pose proof (dispatch_plan_removed net command (groupBoxes w)) as Hrem.
  destruct (dispatch_plan net command (groupBoxes w)) as [[k r] p].
  cbn [fst snd] in *.
  assert (Hk : In g k).
  { apply (Permutation_in _ Hperm), in_app_iff in Hg as [Hg|Hg]; [exact Hg|].
    rewrite Forall_forall in Hrem. destruct (Hrem g Hg) as [Hc Hp].
    unfold accepts in Hacc. rewrite Hc, Hp in Hacc. discriminate. }
  destruct (groupBoxes w) as [|g0 l0] eqn:El.
  - apply Permutation_nil in Hperm. destruct k; [contradiction|discriminate].
  - eexists. eexists. split; [reflexivity|]. cbn [groupBoxes]. now apply in_map.
Qed.

Lemma machineControl_keeps_unselected_and_failed_witness :
  registry_wf three_nodes /\
  In (widget 1 three_nodes) (groupBoxes three_nodes) /\
  accepts lan "reboot" (widget 1 three_nodes) = false /\
  exists w' posted,
    machineControl lan "reboot" three_nodes = Some ((w', posted), None) /\
    In (box_setDisabled false (widget 1 three_nodes)) (groupBoxes w').
Proof.
  assert (Hin : In (widget 1 three_nodes) (groupBoxes three_nodes))
    by (vm_compute; right; left; reflexivity).
  assert (Hacc : accepts lan "reboot" (widget 1 three_nodes) = false)
    by (vm_compute; reflexivity).
  split; [apply wf_run|]. split; [exact Hin|]. split; [exact Hacc|].
  apply (machineControl_keeps_unselected_and_failed lan "reboot" three_nodes
           (widget 1 three_nodes) (wf_run _) Hin Hacc).
Defined.

(** With no box selected a dispatch posts nothing and removes nothing:
    the node list is as before and the group boxes are the same,
    enabled. *)
Theorem machineControl_nothing_selected
    (net : Network) (command : string) (w : MainWindow) :
  registry_wf w ->
  Forall (fun g => checked g = false) (groupBoxes w) ->
  exists w',
    machineControl net command w = Some ((w', []), None) /\
    nodes w' = nodes w /\
    groupBoxes w' = map (box_setDisabled false) (groupBoxes w).
Proof.
  intros Hw Hnone. rewrite (machineControl_spec net command w Hw).
  rewrite (dispatch_plan_none_selected net command _ Hnone).
  destruct (groupBoxes w) eqn:El.
  - exists w. rewrite El. repeat split.
  - eexists. split; [reflexivity|]. split; reflexivity.
Qed.

Lemma machineControl_nothing_selected_witness :
  registry_wf two_nodes /\
  Forall (fun g => checked g = false) (groupBoxes two_nodes) /\
  exists w',
    machineControl quiet_lan "reboot" two_nodes = Some ((w', []), None) /\
    nodes w' = nodes two_nodes /\
    groupBoxes w' = map (box_setDisabled false) (groupBoxes two_nodes).
Proof.
  assert (H : Forall (fun g => checked g = false) (groupBoxes two_nodes))
    by (repeat constructor).
  split; [apply wf_run|]. split; [exact H|].
  apply (machineControl_nothing_selected quiet_lan "reboot" two_nodes (wf_run _) H).
Defined.

(** When the first box of the list accepts the command, the box that
    follows it is not looked at: it stays listed, first, whatever its
    selection, and the remaining POSTs go to boxes after it. *)
Theorem machineControl_skips_box_after_removed
    (net : Network) (command : string) (w : MainWindow)
    (g h : GroupBox) (rest : list GroupBox) :
  registry_wf w ->
  groupBoxes w = g :: h :: rest ->
  accepts net command g = true ->
  exists w' posted,
    machineControl net command w
      = Some ((w', control_url g :: posted), None) /\
    hd_error (groupBoxes w') = Some (box_setDisabled false h) /\
    ~ In (gid g) (map gid (groupBoxes w')) /\
    Forall (fun u => exists x, In x rest /\ checked x = true /\ u = control_url x)
           posted.
Proof.
  intros Hw Hl Hacc. rewrite (machineControl_spec net command w Hw), Hl.
  unfold accepts in Hacc. apply andb_true_iff in Hacc as [Hc Hp].
  cbn [dispatch_plan]. rewrite Hc, Hp.
  pose proof (dispatch_plan_partition net command rest) as Hperm.
  destruct (dispatch_plan_posted net command rest) as [Hposted _].
  destruct (dispatch_plan net command rest) as [[k r] p]. cbn [fst snd] in *.
  eexists. exists p. split; [reflexivity|]. cbn [groupBoxes map hd_error].
  split; [reflexivity|]. split; [|exact Hposted].
  destruct Hw as (Hs & _). rewrite Hl in Hs. simpl in Hs.
  inversion Hs as [|? ? _ Hlt]; subst.
  rewrite map_map. cbn [map gid box_setDisabled].
  intros [E|Hin].
  - inversion Hlt; subst. lia.
  - apply in_map_iff in Hin as (x & Ex & Hx). simpl in Ex.
    assert (Hxr : In x rest).
    { apply (Permutation_in _ (Permutation_sym Hperm)), in_app_iff. now left. }
    inversion Hlt as [|? ? _ Hlt']; subst.
    rewrite Forall_forall in Hlt'.
    specialize (Hlt' (gid x) (in_map gid _ _ Hxr)). lia.
Qed.

Lemma machineControl_skips_box_after_removed_witness :
  registry_wf two_selected /\
  exists w' posted,
    machineControl quiet_lan "reboot" two_selected
      = Some ((w', control_url (widget 0 two_selected) :: posted), None) /\
    hd_error (groupBoxes w') = Some (box_setDisabled false (widget 1 two_selected)).
Proof.
  split; [apply wf_run|].
  destruct (machineControl_skips_box_after_removed quiet_lan "reboot" two_selected
              (widget 0 two_selected) (widget 1 two_selected) []
              (wf_run _) eq_refl eq_refl)
    as (w' & posted & H1 & H2 & _).
  exists w', posted. split; assumption.
Defined.

Lemma dispatch_plan_spaced (net : Network) (command : string) (l : list GroupBox) :
  spaced net command l ->
  dispatch_plan net command l =
    ((filter (fun g => negb (accepts net command g)) l,
      filter (accepts net command) l),
     map control_url (filter checked l)).
Proof.
  induction l as [|g rest IH1 IH2] using list_ind_skip; [reflexivity|].
  intros [Hnext Hrest]. cbn [dispatch_plan filter].
  assert (Ha : accepts net command g
               = checked g && http_post net (control_url g) command)
    by reflexivity.
  destruct (checked g) eqn:Ec;
    [destruct (http_post net (control_url g) command) eqn:Ep|];
    rewrite Ha; cbn [andb negb map].
  - destruct rest as [|h rest']; [reflexivity|].
    assert (Hh : checked h = false) by (apply Hnext; exact Ha).
    assert (Hah : accepts net command h = false)
      by (unfold accepts; now rewrite Hh).
    destruct Hrest as [_ Hrest'].
    rewrite (IH2 h rest' eq_refl Hrest'). cbn [filter map].
    now rewrite Hh, Hah.
  - now rewrite (IH1 Hrest).
  - now rewrite (IH1 Hrest).
Qed.

(** When no selected box directly follows a box that accepts the
    command, a dispatch posts to every selected box, in list order,
    removes exactly those whose POST completed and keeps all others in
    order. *)
Theorem machineControl_spaced_selection
    (net : Network) (command : string) (w : MainWindow) :
  registry_wf w ->
  spaced net command (groupBoxes w) ->
  exists w',
    machineControl net command w
      = Some ((w', map control_url (filter checked (groupBoxes w))), None) /\
    groupBoxes w' =
      map (box_setDisabled false)
          (filter (fun g => negb (accepts net command g)) (groupBoxes w)) /\
    nodes w' = forget (filter (accepts net command) (groupBoxes w)) (nodes w).
Proof.
  intros Hw Hsp. rewrite (machineControl_spec net command w Hw).
  rewrite (dispatch_plan_spaced net command _ Hsp).
  destruct (groupBoxes w) eqn:El.
  - exists w. rewrite El. repeat split.
  - eexists. split; [reflexivity|]. split; reflexivity.
Qed.

Lemma machineControl_spaced_selection_witness :
  registry_wf three_nodes /\
  spaced lan "reboot" (groupBoxes three_nodes) /\
  exists w',
    machineControl lan "reboot" three_nodes
      = Some ((w', map control_url (filter checked (groupBoxes three_nodes))), None) /\
    groupBoxes w' =
      map (box_setDisabled false)
          (filter (fun g => negb (accepts lan "reboot" g)) (groupBoxes three_nodes)) /\
    nodes w' = forget (filter (accepts lan "reboot") (groupBoxes three_nodes))
                      (nodes three_nodes).
Proof.
  assert (H : spaced lan "reboot" (groupBoxes three_nodes)).
  { simpl. repeat split; intros; try reflexivity; discriminate. }
  split; [apply wf_run|]. split; [exact H|].
  apply (machineControl_spaced_selection lan "reboot" three_nodes (wf_run _) H).
Defined.

(** ** One node per address *)

Lemma same_port_eq (p : Z) (a b : Node) :
  n_port a = p -> n_port b = p -> n_address a = n_address b -> a = b.
Proof. destruct a, b. simpl. intros -> <- ->. reflexivity. Qed.

Lemma map_address_nodes (l : list GroupBox) :
  map n_address (map box_node l) = map address l.
Proof. rewrite map_map. reflexivity. Qed.

Lemma map_address_make_boxes (k : nat) (l : list Node) :
  map address (make_boxes k l) = map n_address l.
Proof.
  revert k. induction l as [|n l IH]; intros k; simpl; [reflexivity|].
  now rewrite IH.
Qed.

Lemma remove_first_addr_at (addr : string) (l1 l2 : list Node) (n : Node) :
  ~ In addr (map n_address l1) -> n_address n = addr ->
  remove_first_addr addr (l1 ++ n :: l2) = l1 ++ l2.
Proof.
  intros Hn En. induction l1 as [|m l1 IH]; simpl.
  - now rewrite En, String.eqb_refl.
  - simpl in Hn. destruct (String.eqb (n_address m) addr) eqn:E.
    + apply String.eqb_eq in E. tauto.
    + rewrite IH by tauto. reflexivity.
Qed.

Section Mirror.

Variable p : Z.

Lemma mirrored_init : mirrored p init.
Proof. repeat split; constructor. Qed.

Lemma mirrored_addNodes (arg : option (list Node)) (w : MainWindow) :
  (forall l, arg = Some l -> Forall (fun n => n_port n = p) l) ->
  mirrored p w -> mirrored p (fst (fst (addNodes arg w))).
Proof.
  intros Hport (Hn & Hnd & Hp). destruct arg as [l|]; [|repeat split; assumption].
  specialize (Hport l eq_refl). rewrite addNodes_list. cbn [fst].
  assert (Hnew : Forall (fun n => n_port n = p) (newly (nodes w) l)).
  { apply Forall_forall. intros n Hin. apply newly_In in Hin as [Hin _].
    rewrite Forall_forall in Hport. now apply Hport. }
  assert (Hall : Forall (fun n => n_port n = p) (nodes w ++ newly (nodes w) l))
    by (apply Forall_app; split; assumption).
  unfold mirrored. cbn [nodes groupBoxes].
  split; [now rewrite map_app, make_boxes_nodes, Hn|]. split; [|exact Hall].
  rewrite map_app, map_address_make_boxes, <- map_address_nodes, <- Hn, <- map_app.
  apply Finite.Injective_map_NoDup_in.
  - intros a b Ha Hb. rewrite Forall_forall in Hall.
    apply (same_port_eq p); now apply Hall.
  - apply NoDup_app.
    + apply (NoDup_map_inv n_address). now rewrite Hn, map_address_nodes.
    + apply newly_NoDup.
    + intros a Ha Hb. apply newly_In in Hb as [_ Hb]. contradiction.
Qed.

Lemma mirrored_removeGroupBox (g : GroupBox) (w : MainWindow) :
  genuine g w -> mirrored p w -> mirrored p (fst (removeGroupBox g w)).
Proof.
  intros Hg (Hn & Hnd & Hp).
  destruct (is_deleted g w) eqn:Ed;
    [rewrite removeGroupBox_deleted by exact Ed; repeat split; assumption|].
  destruct (listed g (groupBoxes w)) eqn:El.
  - destruct (listed_split g _ El) as (pre & x & post & Hl & Hx & Hpre).
    rewrite (removeGroupBox_listed g x pre post w Ed Hl Hpre Hx). cbn [fst].
    assert (Ea : address x = address g).
    { apply Hg; [rewrite Hl; apply in_elt|now apply same_widget_eq]. }
    unfold mirrored. cbn [nodes groupBoxes].
    rewrite Hl in Hnd, Hn. rewrite map_app in Hnd, Hn. cbn [map] in Hnd, Hn.
    assert (Hnodes : remove_first_addr (address g) (nodes w)
                     = map box_node pre ++ map box_node post).
    { rewrite Hn. apply remove_first_addr_at; [|exact Ea].
      rewrite map_address_nodes, <- Ea. apply NoDup_remove_2 in Hnd.
      intros H. apply Hnd, in_app_iff. now left. }
    rewrite Hnodes. split; [now rewrite map_app|]. split.
    + rewrite map_app. now apply NoDup_remove_1 in Hnd.
    + rewrite Hn in Hp. apply Forall_app in Hp as [H1 H2].
      apply Forall_app. split; [exact H1|]. now inversion H2.
  - rewrite (removeGroupBox_unlisted g w Ed El). repeat split; assumption.
Qed.

Lemma mirrored_map_boxes (f : GroupBox -> GroupBox) (w : MainWindow) :
  (forall g, address (f g) = address g /\ port (f g) = port g) ->
  mirrored p w -> mirrored p (with_groupBoxes (map f (groupBoxes w)) w).
Proof.
  intros Hf (Hn & Hnd & Hp). unfold mirrored, with_groupBoxes.
  cbn [nodes groupBoxes]. rewrite !map_map.
  rewrite (map_ext (fun x => box_node (f x)) box_node)
    by (intros x; unfold box_node; destruct (Hf x) as [-> ->]; reflexivity).
  rewrite (map_ext (fun x => address (f x)) address) by (intros; apply Hf).
  repeat split; assumption.
Qed.

Lemma mirrored_on_widget (f : GroupBox -> GroupBox) (g : GroupBox) (w : MainWindow) :
  (forall x, address (f x) = address x /\ port (f x) = port x) ->
  mirrored p w -> mirrored p (on_widget f g w).
Proof.
  intros Hf Hm. unfold on_widget. apply mirrored_map_boxes; [|exact Hm].
  intros x. destruct (same_widget x g); auto.
Qed.

Lemma mirrored_flags (w : MainWindow) (t d : bool) :
  mirrored p w ->
  mirrored p (mkMainWindow (nodes w) (groupBoxes w) t d (made w)
                           (pending_delete w) (deleted w)).
Proof. intros H. exact H. Qed.

Lemma mirrored_machineControl_body (net : Network) (command : string)
    (x : GroupBox) (st : MainWindow * list string) (j : nat) :
  registry_wf (fst st) /\ mirrored p (fst st) ->
  nth_error (groupBoxes (fst st)) j = Some x ->
  registry_wf (fst (fst (machineControl_body net command x st))) /\
  mirrored p (fst (fst (machineControl_body net command x st))).
Proof.
  intros [Hw Hm] Hx.
  split; [now apply (machineControl_body_wf net command x st j)|].
  destruct st as [w posted]. cbn [fst] in *.
  apply nth_error_In in Hx. unfold machineControl_body.
  destruct (checked x); cbn [fst]; [|exact Hm].
  assert (Hm1 : mirrored p (on_widget (box_setDisabled true) x w)).
  { apply mirrored_on_widget; [intros; split; reflexivity|exact Hm]. }
  destruct (http_post net (control_url x) command); cbn [fst]; [|exact Hm1].
  assert (H : mirrored p (fst (removeGroupBox x (on_widget (box_setDisabled true) x w)))).
  { apply mirrored_removeGroupBox; [|exact Hm1].
    apply genuine_on_widget; [apply box_setDisabled_keeps|].
    now apply genuine_listed. }
  destruct (removeGroupBox x (on_widget (box_setDisabled true) x w)) as [w2 [e|]];
    exact H.
Qed.

Lemma mirrored_machineControl (net : Network) (command : string) (w : MainWindow)
    (r : (MainWindow * list string) * option PyExc) :
  registry_wf w -> mirrored p w ->
  machineControl net command w = Some r -> mirrored p (fst (fst r)).
Proof.
  intros Hw Hm. unfold machineControl.
  destruct (Nat.eqb (List.length (groupBoxes w)) 0).
  - intros H. injection H as <-. exact Hm.
  - set (w1 := disableGroupBoxes true (toolbar_setDisabled true w)).
    assert (H1 : registry_wf w1 /\ mirrored p w1).
    { split.
      - apply (wf_map_boxes (box_setDisabled true) (toolbar_setDisabled true w));
          [apply box_setDisabled_keeps|exact Hw].
      - apply (mirrored_map_boxes (box_setDisabled true) (toolbar_setDisabled true w));
          [intros; split; reflexivity|exact Hm]. }
    pose proof (for_each_live_inv (machineControl_body net command)
                  (fun st => registry_wf (fst st) /\ mirrored p (fst st))
                  (fun st => groupBoxes (fst st))
                  (List.length (groupBoxes w1)) 0 (w1, [])) as Hinv.
    destruct (for_each_live _ _ _ _ _) as [[[w2 posted] [e|]]|]; [| |discriminate].
    + intros H. injection H as <-.
      apply (Hinv _ (fun x st0 j => mirrored_machineControl_body net command x st0 j)
               H1 eq_refl).
    + intros H. injection H as <-. cbn [fst].
      destruct (Hinv _ (fun x st0 j => mirrored_machineControl_body net command x st0 j)
                  H1 eq_refl) as [_ Hm2]. cbn [fst] in Hm2.
      apply (mirrored_flags _ false (window_disabled w2)).
      apply (mirrored_map_boxes (box_setDisabled false) w2);
        [intros; split; reflexivity|exact Hm2].
Qed.

Lemma mirrored_react (w : MainWindow) (ev : Event) :
  (forall l, ev = EvActiveNodes (Some l) -> Forall (fun n => n_port n = p) l) ->
  registry_wf w -> mirrored p w -> mirrored p (react w ev).
Proof.
  intros Hport Hw Hm. change (mirrored p (handle w ev)).
  destruct ev as [arg|k|k state|state|net command|net| |]; cbn [handle].
  - apply mirrored_addNodes; [|exact Hm]. intros l E.
    destruct arg as [l0|]; injection E as <-; [now apply Hport|constructor].
  - apply mirrored_removeGroupBox; [now apply widget_genuine|exact Hm].
  - apply mirrored_on_widget; [intros; split; reflexivity|exact Hm].
  - apply (mirrored_map_boxes (box_setChecked state) w);
      [intros; split; reflexivity|exact Hm].
  - destruct (machineControl net command w) as [[st e]|] eqn:E; [|exact Hm].
    apply (mirrored_machineControl net command w (st, e) Hw Hm E).
  - rewrite (checkNodeName_cycle_spec net w Hw).
    apply mirrored_map_boxes; [|exact Hm].
    intros g. unfold refreshed.
    destruct (http_get_json net (name_url g)); split; reflexivity.
  - rewrite (clearList_spec w Hw). repeat split; constructor.
  - exact Hm.
Qed.

End Mirror.

Lemma mirrored_run (p : Z) (history : list Event) :
  single_port p history -> mirrored p (run history).
Proof.
  intros Hsp.
  induction history as [|ev h IH] using rev_ind; [apply mirrored_init|].
  unfold run. rewrite fold_left_app. cbn [fold_left].
  apply mirrored_react.
  - intros l ->. apply Hsp, in_app_iff. right. now left.
  - apply wf_run.
  - apply IH. intros l Hl. apply Hsp, in_app_iff. now left.
Qed.

(** As long as every merged list carries one port, as the lists of the
    scanner do, the node list is exactly the list of the (address,
    port) of the group boxes, in their order, and no address is listed
    twice, after every history of events. *)
Theorem run_one_node_per_address (p : Z) (history : list Event) :
  single_port p history ->
  nodes (run history) = map box_node (groupBoxes (run history)) /\
  NoDup (map address (groupBoxes (run history))) /\
  NoDup (nodes (run history)).
Proof.
  intros Hsp. destruct (mirrored_run p history Hsp) as (Hn & Hnd & _).
  split; [exact Hn|]. split; [exact Hnd|].
  apply (NoDup_map_inv n_address). now rewrite Hn, map_address_nodes.
Qed.

Lemma run_one_node_per_address_witness :
  single_port 5000 [EvActiveNodes (Some [nodeA; nodeB; nodeC]);
                    EvRemoveClicked 1;
                    EvActiveNodes (Some [nodeC; nodeB])] /\
  NoDup (map address
           (groupBoxes (run [EvActiveNodes (Some [nodeA; nodeB; nodeC]);
                             EvRemoveClicked 1;
                             EvActiveNodes (Some [nodeC; nodeB])]))).
Proof.
  assert (H : single_port 5000 [EvActiveNodes (Some [nodeA; nodeB; nodeC]);
                                EvRemoveClicked 1;
                                EvActiveNodes (Some [nodeC; nodeB])]).
  { intros l [E|[E|[E|[]]]]; try discriminate; injection E as <-;
      repeat constructor. }
  split; [exact H|].
  exact (proj1 (proj2 (run_one_node_per_address 5000 _ H))).
Defined.

(** ** The two lists of the window *)

Lemma remove_first_addr_In (addr : string) (l : list Node) (n : Node) :
  In n (remove_first_addr addr l) -> In n l.
Proof.
  induction l as [|m l IH]; simpl; [tauto|].
  destruct (String.eqb (n_address m) addr); simpl; [tauto|].
  intros [H|H]; [now left|right; now apply IH].
Qed.

Lemma remove_first_addr_NoDup (addr : string) (l : list Node) :
  NoDup l -> NoDup (remove_first_addr addr l).
Proof.
  induction 1 as [|m l Hm Hl IH]; simpl; [constructor|].
  destruct (String.eqb (n_address m) addr); [exact Hl|].
  constructor; [|exact IH]. intros H. apply Hm. now apply remove_first_addr_In in H.
Qed.

Lemma forget_NoDup (removed : list GroupBox) (l : list Node) :
  NoDup l -> NoDup (forget removed l).
Proof.
  unfold forget. revert l. induction removed as [|g r IH]; intros l H; simpl.
  - exact H.
  - now apply IH, remove_first_addr_NoDup.
Qed.

Lemma NoDup_nodes_react (w : MainWindow) (ev : Event) :
  registry_wf w -> NoDup (nodes w) -> NoDup (nodes (react w ev)).
Proof.
  intros Hw Hnd. change (NoDup (nodes (handle w ev))).
  destruct ev as [arg|k|k state|state|net command|net| |]; cbn [handle];
    try exact Hnd.
  - set (l := match arg with Some l => l | None => [] end).
    replace (activeNodes_delivers arg) with (Some l) by (now destruct arg).
    rewrite addNodes_list. cbn [fst nodes].
    apply NoDup_app; [exact Hnd|apply newly_NoDup|].
    intros a Ha Hb. apply newly_In in Hb as [_ Hb]. contradiction.
  - destruct (is_deleted (widget k w) w) eqn:Ed;
      [now rewrite removeGroupBox_deleted|].
    destruct (listed (widget k w) (groupBoxes w)) eqn:El.
    + destruct (listed_split _ _ El) as (pre & x & post & Hl & Hx & Hpre).
      rewrite (removeGroupBox_listed _ x pre post w Ed Hl Hpre Hx). cbn [fst nodes].
      now apply remove_first_addr_NoDup.
    + now rewrite removeGroupBox_unlisted.
  - rewrite (machineControl_spec net command w Hw).
    destruct (groupBoxes w); [exact Hnd|]. cbn [fst nodes].
    now apply forget_NoDup.
  - now rewrite (checkNodeName_cycle_spec net w Hw).
  - rewrite (clearList_spec w Hw). constructor.
Qed.

(** After every history of events the two lists of the window are in
    step: they have the same length, the addresses of the nodes are
    those of the group boxes, each as often, and the node list holds no
    node twice, whatever the ports. *)
Theorem run_lists_in_step (history : list Event) :
  List.length (nodes (run history)) = List.length (groupBoxes (run history)) /\
  Permutation (map n_address (nodes (run history)))
              (map address (groupBoxes (run history))) /\
  NoDup (nodes (run history)).
Proof.
  destruct (wf_run history) as (_ & _ & Hp & _).
  split; [|split; [exact Hp|]].
  - apply Permutation_length in Hp. now rewrite !length_map in Hp.
  - clear Hp. induction history as [|ev h IH] using rev_ind; [constructor|].
    unfold run. rewrite fold_left_app. cbn [fold_left].
    apply NoDup_nodes_react; [apply wf_run|exact IH].
Qed.

(** A node that was removed is found again by the next scan that sees
    it: it is not in the node list after the removal, and a merge that
    brings it appends it at the end under a new group box, unselected
    and with the default name. *)
Theorem removed_node_is_merged_again (p : Z) (w : MainWindow) (g : GroupBox) :
  registry_wf w -> mirrored p w -> In g (groupBoxes w) ->
  exists w1 w2,
    removeGroupBox g w = (w1, None) /\
    ~ In (box_node g) (nodes w1) /\
    addNodes (Some [box_node g]) w1 = ((w2, [box_node g]), None) /\
    nodes w2 = nodes w1 ++ [box_node g] /\
    groupBoxes w2 =
      groupBoxes w1 ++ [mkGroupBox (made w) (address g) (port g) false "—" false].
Proof.
  intros Hw Hm Hg.
  assert (Hgen : genuine g w) by now apply genuine_listed.
  pose proof (mirrored_removeGroupBox p g w Hgen Hm) as Hm1.
  apply in_split in Hg as (pre & post & Hl).
  assert (Hpre : Forall (fun z => same_widget z g = false) pre).
  { destruct Hw as (Hs & _). rewrite Hl, map_app in Hs. cbn [map] in Hs.
    apply sorted_NoDup, NoDup_remove_2 in Hs.
    apply Forall_forall. intros z Hz.
    destruct (same_widget z g) eqn:E; [|reflexivity].
    apply same_widget_eq in E. exfalso. apply Hs, in_app_iff. left.
    rewrite <- E. now apply in_map. }
  assert (Hsame : same_widget g g = true) by now apply same_widget_eq.
  assert (Hal : is_deleted g w = false).
  { apply listed_alive; [exact Hw|]. apply In_listed. rewrite Hl. apply in_elt. }
  rewrite (removeGroupBox_listed g g pre post w Hal Hl Hpre Hsame) in *.
  cbn [fst] in Hm1. destruct Hm1 as (Hn1 & Hnd1 & _). cbn [nodes groupBoxes] in *.
  assert (Hout : ~ In (box_node g) (remove_first_addr (address g) (nodes w))).
  { rewrite Hn1. intros Hin. apply (in_map n_address) in Hin.
    rewrite map_address_nodes in Hin. cbn [box_node n_address] in Hin.
    destruct Hm as (_ & Hnd & _). rewrite Hl, map_app in Hnd. cbn [map] in Hnd.
    apply NoDup_remove_2 in Hnd. apply Hnd. now rewrite <- map_app. }
  eexists. eexists. split; [reflexivity|]. cbn [nodes groupBoxes].
  split; [exact Hout|].
  rewrite addNodes_list. cbn [nodes groupBoxes made newly].
  replace (contains node_eqb (box_node g) (remove_first_addr (address g) (nodes w)))
    with false.
  - cbn [make_boxes box_node n_address n_port List.length].
    split; [reflexivity|]. split; reflexivity.
  - symmetry. destruct (contains _ _ _) eqn:E; [|reflexivity].
    apply contains_In in E. contradiction.
Qed.

Lemma removed_node_is_merged_again_witness :
  registry_wf three_nodes /\ mirrored 5000 three_nodes /\
  In (widget 0 three_nodes) (groupBoxes three_nodes) /\
  exists w1 w2,
    removeGroupBox (widget 0 three_nodes) three_nodes = (w1, None) /\
    addNodes (Some [nodeA]) w1 = ((w2, [nodeA]), None) /\
    map address (groupBoxes w2) = ["10.0.0.2"; "10.0.0.9"; "10.0.0.5"].
Proof.
  assert (Hsp : single_port 5000
                  [EvActiveNodes (Some [nodeA; nodeB; nodeC]);
                   EvCheckboxClicked 0 true; EvCheckboxClicked 2 true]).
  { intros l [E|[E|[E|[]]]]; try discriminate; injection E as <-;
      repeat constructor. }
  assert (Hin : In (widget 0 three_nodes) (groupBoxes three_nodes))
    by (vm_compute; left; reflexivity).
  split; [apply wf_run|]. split; [exact (mirrored_run 5000 _ Hsp)|].
  split; [exact Hin|].
  destruct (removed_node_is_merged_again 5000 three_nodes (widget 0 three_nodes)
              (wf_run _) (mirrored_run 5000 _ Hsp) Hin)
    as (w1 & w2 & H1 & _ & H2 & _ & H3).
  exists w1, w2. split; [exact H1|]. split; [exact H2|].
  rewrite H3. injection H1 as <-. reflexivity.
Defined.

(** ** The scan of the local subnet *)

Lemma dotless_cons (c : ascii) (s : string) :
  dotless (String c s) -> c <> "."%char /\ dotless s.
Proof.
  intros H. split.
  - apply (H c). now left.
  - intros x Hx. apply H. now right.
Qed.

Lemma dotless_plain (s : string) : dotless s -> plain_text s = true.
Proof.
  intros H. apply forallb_forall. intros c Hc. now apply H.
Qed.

Lemma split_dot_app (s t : string) :
  dotless s -> split "." (s ++ "." ++ t) = s :: split "." t.
Proof.
  induction s as [|c s IH]; intros Hs.
  - reflexivity.
  - apply dotless_cons in Hs as [Hc Hs]. cbn [String.append split].
    replace (Ascii.eqb c ".") with false
      by (symmetry; now apply Ascii.eqb_neq).
    fold (String.append s ("." ++ t)). change (String "." t) with ("." ++ t)%string.
    now rewrite (IH Hs).
Qed.

(** The prefix that [scanNodes] scans: the first three components of
    the local address. *)
Lemma networkPrefix_dotted (a b c d : string) :
  dotless a -> dotless b -> dotless c ->
  join "." (firstn 3 (split "." (a ++ "." ++ b ++ "." ++ c ++ "." ++ d)))
  = (a ++ "." ++ b ++ "." ++ c)%string.
Proof.
  intros Ha Hb Hc.
  rewrite (split_dot_app a _ Ha), (split_dot_app b _ Hb), (split_dot_app c _ Hc).
  reflexivity.
Qed.

Lemma run_tasks_state (net : Network) (port timeout : Z)
    (targets : list string) (g : SocketModule) :
  valid_timeout timeout -> targets <> [] ->
  snd (Worker.run_tasks net port timeout targets g) = mkSocketModule (Some timeout).
Proof.
  intros Ht. revert g. induction targets as [|a rest IH]; intros g Hne.
  - contradiction.
  - cbn [Worker.run_tasks]. rewrite (checkIP_accepted net a port timeout g Ht).
    destruct rest as [|b rest'].
    + reflexivity.
    + specialize (IH (mkSocketModule (Some timeout))).
      destruct (Worker.run_tasks net port timeout (b :: rest')
                  (mkSocketModule (Some timeout))) as [rs g2].
      cbn [snd] in *. apply IH. discriminate.
Qed.

Lemma scan_targets_nonempty (prefix : string) : Worker.scan_targets prefix <> [].
Proof.
  intros H. apply (f_equal (@List.length string)) in H.
  rewrite scan_targets_seq, length_map, length_seq in H. discriminate.
Qed.

(** With the local address [a.b.c.d], [scanNodes] probes the hosts
    [a.b.c.1] .. [a.b.c.254] on port 5000 with a timeout of one second,
    emits the list of those that answered, or [None] when none did, and
    leaves the default timeout of the socket module at one second. *)
Theorem scanNodes_scans_local_subnet
    (net : Network)
    (as_completed : list (result ProbeValue) -> list (result ProbeValue))
    (g : SocketModule) (a b c d : string) :
  dotless a -> dotless b -> dotless c ->
  getsockname net = Ok (a ++ "." ++ b ++ "." ++ c ++ "." ++ d)%string ->
  (forall l, Permutation (as_completed l) l) ->
  exists found : list Node,
    Permutation found
      (map (fun x => mkNode x 5000)
           (filter (connects net 5000 1)
                   (Worker.scan_targets (a ++ "." ++ b ++ "." ++ c)))) /\
    Worker.scanNodes net as_completed g =
      (Ok (match found with [] => None | _ :: _ => Some found end),
       mkSocketModule (Some 1)).
Proof.
  intros Ha Hb Hc Hip Hperm.
  assert (Hp : valid_port 5000) by (unfold valid_port; lia).
  assert (Ht : valid_timeout 1)
    by (unfold valid_timeout, Worker.timeout_limit; lia).
  set (prefix := (a ++ "." ++ b ++ "." ++ c)%string).
  assert (Hplain : plain_text prefix = true).
  { unfold prefix. rewrite !plain_text_app.
    now rewrite (dotless_plain a Ha), (dotless_plain b Hb), (dotless_plain c Hc). }
  destruct (scanLAN_valid net as_completed 5000 prefix 1 g Hplain Hp Ht Hperm)
    as (found & Hfound & Hpf).
  exists found. split; [exact Hpf|].
  unfold Worker.scanNodes, Worker.localIP. rewrite Hip.
  rewrite (networkPrefix_dotted a b c d Ha Hb Hc). fold prefix.
  change Worker.scanPort with 5000.
  assert (Hg : snd (Worker.scanLAN net as_completed 5000 prefix 1 g)
               = mkSocketModule (Some 1)).
  { unfold Worker.scanLAN.
    pose proof (run_tasks_state net 5000 1 (Worker.scan_targets prefix) g Ht
                  (scan_targets_nonempty prefix)) as Hs.
    destruct (Worker.run_tasks net 5000 1 (Worker.scan_targets prefix) g).
    exact Hs. }
  destruct (Worker.scanLAN net as_completed 5000 prefix 1 g) as [r g1].
  cbn [fst snd] in *. subst r g1. now destruct found.
Qed.

Lemma scanNodes_scans_local_subnet_witness :
  dotless "192" /\ dotless "168" /\ dotless "1" /\
  exists found : list Node,
    Permutation found
      (map (fun x => mkNode x 5000)
           (filter (connects lan 5000 1) (Worker.scan_targets "192.168.1"))) /\
    Worker.scanNodes lan (@rev _) (mkSocketModule None) =
      (Ok (match found with [] => None | _ :: _ => Some found end),
       mkSocketModule (Some 1)).
Proof.
  assert (H192 : dotless "192")
    by (intros x [<-|[<-|[<-|[]]]]; split; reflexivity || discriminate).
  assert (H168 : dotless "168")
    by (intros x [<-|[<-|[<-|[]]]]; split; reflexivity || discriminate).
  assert (H1 : dotless "1")
    by (intros x [<-|[]]; split; reflexivity || discriminate).
  split; [exact H192|]. split; [exact H168|]. split; [exact H1|].
  apply (scanNodes_scans_local_subnet lan (@rev _) (mkSocketModule None)
           "192" "168" "1" "17" H192 H168 H1 eq_refl (@rev_completes _)).
Defined.

(** Whatever list [scanNodes] emits is not empty, holds one node per
    address, all on the scan port; and [addNodes] on it returns
    without raising, re-enables the window that [scanHandler] disabled
    and leaves every found node in the node list. *)
Theorem scan_result_is_merged
    (net : Network)
    (as_completed : list (result ProbeValue) -> list (result ProbeValue))
    (g : SocketModule) (w : MainWindow) (found : list Node) :
  (forall l, Permutation (as_completed l) l) ->
  fst (Worker.scanNodes net as_completed g) = Ok (Some found) ->
  found <> [] /\
  NoDup (map n_address found) /\
  Forall (fun n => n_port n = Worker.scanPort) found /\
  exists w',
    addNodes (Some found) (scanHandler w) = ((w', newly (nodes w) found), None) /\
    window_disabled w' = false /\
    incl found (nodes w').
Proof.
  intros Hperm Hscan.
  assert (Hp : valid_port Worker.scanPort)
    by (unfold valid_port, Worker.scanPort; lia).
  assert (Ht : valid_timeout 1)
    by (unfold valid_timeout, Worker.timeout_limit; lia).
  unfold Worker.scanNodes, Worker.localIP in Hscan.
  destruct (getsockname net) as [ip|e]; [|discriminate].
  pose proof (scanLAN_found net Worker.scanPort 1 Ht as_completed
                (join "." (firstn 3 (split "." ip))) g) as Hfound.
  destruct (Worker.scanLAN _ _ _ _ _ _) as [[found'|e] g1];
    [|discriminate].
  cbn [fst] in Hfound. specialize (Hfound found' Hperm eq_refl).
  destruct found' as [|n rest]; [discriminate|].
  cbn [fst] in Hscan. injection Hscan as <-. rename Hfound into Hpf.
  split; [discriminate|]. split; [|split].
  - apply (Permutation_NoDup (Permutation_sym (Permutation_map n_address Hpf))).
    rewrite map_map. cbn [n_address]. rewrite map_id.
    apply NoDup_filter, NoDup_scan_targets.
  - apply Forall_forall. intros x Hx.
    apply (Permutation_in _ Hpf), in_map_iff in Hx as (addr & <- & _). reflexivity.
  - eexists. rewrite addNodes_list. split; [reflexivity|].
    cbn [window_disabled nodes scanHandler setDisabled]. split; [reflexivity|].
    intros x Hx. apply in_app_iff.
    destruct (contains node_eqb x (nodes w)) eqn:E.
    + left. now apply contains_In.
    + right. apply newly_In. split; [exact Hx|].
      intros H. apply contains_In in H. congruence.
Qed.

Lemma scan_result_is_merged_witness :
  fst (Worker.scanNodes lan (@rev _) (mkSocketModule None))
    = Ok (Some [mkNode "192.168.1.20" 5000; mkNode "192.168.1.10" 5000]) /\
  exists w',
    addNodes (Some [mkNode "192.168.1.20" 5000; mkNode "192.168.1.10" 5000])
             (scanHandler init)
    = ((w', newly (nodes init)
                  [mkNode "192.168.1.20" 5000; mkNode "192.168.1.10" 5000]), None) /\
    window_disabled w' = false.
Proof.
  assert (H : fst (Worker.scanNodes lan (@rev _) (mkSocketModule None))
              = Ok (Some [mkNode "192.168.1.20" 5000; mkNode "192.168.1.10" 5000]))
    by (vm_compute; reflexivity).
  split; [exact H|].
  destruct (scan_result_is_merged lan (@rev _) (mkSocketModule None) init _
              (@rev_completes _) H) as (_ & _ & _ & w' & H1 & H2 & _).
  exists w'. split; assumption.
Defined.

(** ** More on the name refresh *)

Lemma refreshed_twice (net : Network) (g : GroupBox) :
  refreshed net (refreshed net g) = refreshed net g.
Proof.
  unfold refreshed at 2. destruct (http_get_json net (name_url g)) as [name|] eqn:E.
  - unfold refreshed.
    change (name_url (box_setText name g)) with (name_url g). now rewrite E.
  - unfold refreshed. now rewrite E.
Qed.

(** A refresh cycle changes name labels only: the widgets, their
    addresses, ports, selection and order are as before; and a second
    cycle against the same answers changes nothing more. *)
Theorem checkNodeName_cycle_settles (net : Network) (w w1 : MainWindow) :
  registry_wf w ->
  checkNodeName_cycle net w = Some (w1, None) ->
  map gid (groupBoxes w1) = map gid (groupBoxes w) /\
  map box_node (groupBoxes w1) = map box_node (groupBoxes w) /\
  map checked (groupBoxes w1) = map checked (groupBoxes w) /\
  map disabled (groupBoxes w1) = map disabled (groupBoxes w) /\
  checkNodeName_cycle net w1 = Some (w1, None).
Proof.
  intros Hw Hrun. rewrite (checkNodeName_cycle_spec net w Hw) in Hrun.
  injection Hrun as <-. cbn [groupBoxes with_groupBoxes]. rewrite !map_map.
  assert (Hkeep : forall g, gid (refreshed net g) = gid g /\
                            box_node (refreshed net g) = box_node g /\
                            checked (refreshed net g) = checked g /\
                            disabled (refreshed net g) = disabled g).
  { intros g. unfold refreshed. destruct (http_get_json net (name_url g));
      repeat split. }
  repeat split; try (apply map_ext; intros; apply Hkeep).
  rewrite checkNodeName_cycle_spec.
  - cbn [groupBoxes with_groupBoxes]. rewrite map_map.
    rewrite (map_ext _ (refreshed net)) by (intros; apply refreshed_twice).
    reflexivity.
  - apply wf_map_boxes; [apply refreshed_keeps|exact Hw].
Qed.

Lemma checkNodeName_cycle_settles_witness :
  registry_wf two_nodes /\
  exists w1,
    checkNodeName_cycle lan two_nodes = Some (w1, None) /\
    checkNodeName_cycle lan w1 = Some (w1, None).
Proof.
  split; [apply wf_run|].
  pose proof (checkNodeName_cycle_spec lan two_nodes (wf_run _)) as Hrun.
  eexists. split; [exact Hrun|].
  exact (proj2 (proj2 (proj2 (proj2
           (checkNodeName_cycle_settles lan two_nodes _ (wf_run _) Hrun))))).
Defined.

(** ** Dispatch to a fully selected list *)

Lemma dispatch_plan_all_accept (net : Network) (command : string) (l : list GroupBox) :
  Forall (fun g => accepts net command g = true) l ->
  List.length (fst (fst (dispatch_plan net command l))) = Nat.div2 (List.length l) /\
  List.length (snd (dispatch_plan net command l))
    = Nat.div2 (Datatypes.S (List.length l)).
Proof.
  induction l as [|g rest IH1 IH2] using list_ind_skip; intros Hall.
  - split; reflexivity.
  - inversion Hall as [|? ? Hg Hrest]; subst.
    unfold accepts in Hg. apply andb_true_iff in Hg as [Hc Hp].
    cbn [dispatch_plan]. rewrite Hc, Hp.
    destruct rest as [|h rest']; [split; reflexivity|].
    inversion Hrest as [|? ? _ Hrest']; subst.
    destruct (IH2 h rest' eq_refl Hrest') as [Hk Hposted].
    destruct (dispatch_plan net command rest') as [[k r] p]. cbn [fst snd] in *.
    split; simpl; now f_equal.
Qed.

Lemma wf_toggleSelection (state : bool) (w : MainWindow) :
  registry_wf w -> registry_wf (toggleSelection state w).
Proof.
  intros Hw. apply (wf_map_boxes (box_setChecked state) w);
    [apply box_setChecked_keeps|exact Hw].
Qed.

Lemma dispatch_plan_every_other (net : Network) (command : string)
    (l : list GroupBox) :
  Forall (fun g => accepts net command g = true) l ->
  dispatch_plan net command l =
    ((every_other (tl l), every_other l), map control_url (every_other l)).
Proof.
  induction l as [|g rest IH1 IH2] using list_ind_skip; intros Hall.
  - reflexivity.
  - inversion Hall as [|? ? Hg Hrest]; subst.
    unfold accepts in Hg. apply andb_true_iff in Hg as [Hc Hp].
    cbn [dispatch_plan]. rewrite Hc, Hp.
    destruct rest as [|h rest']; [reflexivity|].
    inversion Hrest as [|? ? _ Hrest']; subst.
    rewrite (IH2 h rest' eq_refl Hrest').
    destruct rest' as [|h' rest'']; reflexivity.
Qed.

(** When every box is selected and every node accepts the command, one
    dispatch posts to every other box only, starting with the first:
    to the boxes at the positions 0, 2, 4, ... of the list, in that
    order.  Those are removed, with their nodes; the boxes at the
    positions 1, 3, 5, ... are never sent the command and are still
    listed afterwards, enabled.  So half of the boxes, rounded up, are
    posted to and half of them, rounded down, stay. *)
Theorem machineControl_all_accept_halves
    (net : Network) (command : string) (w : MainWindow) :
  registry_wf w ->
  Forall (fun g => accepts net command g = true) (groupBoxes w) ->
  exists w' posted,
    machineControl net command w = Some ((w', posted), None) /\
    posted = map control_url (every_other (groupBoxes w)) /\
    groupBoxes w' =
      map (box_setDisabled false) (every_other (tl (groupBoxes w))) /\
    nodes w' = forget (every_other (groupBoxes w)) (nodes w) /\
    List.length (groupBoxes w') = Nat.div2 (List.length (groupBoxes w)) /\
    List.length posted = Nat.div2 (Datatypes.S (List.length (groupBoxes w))).
Proof.
  intros Hw Hall. rewrite (machineControl_spec net command w Hw).
  destruct (dispatch_plan_all_accept net command _ Hall) as [Hk Hp].
  rewrite (dispatch_plan_every_other net command _ Hall) in *.
  cbn [fst snd] in *.
  destruct (groupBoxes w) as [|g0 l0] eqn:El.
  - exists w, []. rewrite El. repeat split.
  - eexists. eexists. split; [reflexivity|]. cbn [groupBoxes nodes].
    split; [reflexivity|]. split; [reflexivity|]. split; [reflexivity|].
    rewrite length_map. split; assumption.
Qed.

Lemma machineControl_all_accept_halves_witness :
  registry_wf three_nodes /\
  Forall (fun g => accepts quiet_lan "reboot" g = true)
         (groupBoxes (toggleSelection true three_nodes)) /\
  exists w' posted,
    machineControl quiet_lan "reboot" (toggleSelection true three_nodes)
      = Some ((w', posted), None) /\
    posted = ["http://10.0.0.5:5000/machine-control";
              "http://10.0.0.9:5000/machine-control"] /\
    map address (groupBoxes w') = ["10.0.0.2"] /\
    nodes w' = [nodeB].
Proof.
  assert (H : Forall (fun g => accepts quiet_lan "reboot" g = true)
                     (groupBoxes (toggleSelection true three_nodes)))
    by (vm_compute; repeat constructor).
  split; [apply wf_run|]. split; [exact H|].
  destruct (machineControl_all_accept_halves quiet_lan "reboot"
              (toggleSelection true three_nodes)
              (wf_toggleSelection true three_nodes (wf_run _)) H)
    as (w' & posted & Hrun & Hposted & Hboxes & Hnodes & _).
  exists w', posted. split; [exact Hrun|].
  rewrite Hposted, Hboxes, Hnodes. split; [|split]; vm_compute; reflexivity.
Defined.

(** ** Clearing and scanning again *)

Lemma newly_fresh (known l : list Node) :
  NoDup l -> (forall n, In n l -> ~ In n known) -> newly known l = l.
Proof.
  intros Hnd. revert known. induction Hnd as [|n l Hn Hl IH]; intros known Hfresh;
    simpl; [reflexivity|].
  replace (contains node_eqb n known) with false.
  - f_equal. apply IH. intros m Hm Hin. apply in_app_iff in Hin as [Hin|[<-|[]]].
    + apply (Hfresh m); [now right|exact Hin].
    + contradiction.
  - symmetry. destruct (contains node_eqb n known) eqn:E; [|reflexivity].
    apply contains_In in E. exfalso. apply (Hfresh n); [now left|exact E].
Qed.

(** After [clearList], a merge starts from nothing: the nodes of a
    duplicate-free list all come back as newly added, and the node list
    and the group boxes are exactly that list, in its order, all
    unselected. *)
Theorem clearList_then_addNodes (w : MainWindow) (found : list Node) :
  registry_wf w -> NoDup found ->
  exists w1 w2,
    clearList w = (w1, None) /\
    addNodes (Some found) w1 = ((w2, found), None) /\
    nodes w2 = found /\
    map box_node (groupBoxes w2) = found /\
    Forall (fun g => checked g = false) (groupBoxes w2).
Proof.
  intros Hw Hnd. rewrite (clearList_spec w Hw).
  eexists. eexists. split; [reflexivity|].
  rewrite addNodes_list. cbn [nodes groupBoxes made app].
  rewrite (newly_fresh [] found Hnd) by (intros n _ []).
  split; [reflexivity|]. cbn [nodes groupBoxes].
  split; [reflexivity|]. split; [apply make_boxes_nodes|].
  generalize (made w). induction found as [|n l IH]; intros k; simpl;
    constructor; [reflexivity|].
  apply IH. now inversion Hnd.
Qed.

Lemma clearList_then_addNodes_witness :
  registry_wf three_nodes /\ NoDup [nodeC; nodeA] /\
  exists w1 w2,
    clearList three_nodes = (w1, None) /\
    addNodes (Some [nodeC; nodeA]) w1 = ((w2, [nodeC; nodeA]), None) /\
    nodes w2 = [nodeC; nodeA].
Proof.
  assert (H : NoDup [nodeC; nodeA]).
  { constructor; [intros [E|[]]; discriminate|].
    constructor; [intros []|constructor]. }
  split; [apply wf_run|]. split; [exact H|].
  destruct (clearList_then_addNodes three_nodes [nodeC; nodeA] (wf_run _) H)
    as (w1 & w2 & H1 & H2 & H3 & _).
  exists w1, w2. auto.
Defined.

(** ** Toggle, then dispatch *)

(** After "Toggle Selection" is switched off, "Shutdown" posts nothing
    and removes nothing.  After it is switched on, "Reboot" on nodes
    that all accept the command posts to every other node only, and
    half of the nodes, rounded down, are still listed. *)
Theorem toggleSelection_then_dispatch (net : Network) (w : MainWindow) :
  registry_wf w ->
  (exists w',
     shutdownHandler net (toggleSelection false w) = Some ((w', []), None) /\
     nodes w' = nodes w /\
     map gid (groupBoxes w') = map gid (groupBoxes w) /\
     Forall (fun g => checked g = false /\ disabled g = false) (groupBoxes w')) /\
  ((forall g, In g (groupBoxes w) ->
              http_post net (control_url g) "reboot" = true) ->
   exists w' posted,
     rebootHandler net (toggleSelection true w) = Some ((w', posted), None) /\
     List.length (groupBoxes w') = Nat.div2 (List.length (groupBoxes w)) /\
     List.length posted = Nat.div2 (Datatypes.S (List.length (groupBoxes w)))).
Proof.
  intros Hw.
  assert (Hgb : forall state,
            groupBoxes (toggleSelection state w)
            = map (box_setChecked state) (groupBoxes w)) by reflexivity.
  split.
  - unfold shutdownHandler.
    rewrite (machineControl_spec net "shutdown" _ (wf_toggleSelection false w Hw)).
    rewrite dispatch_plan_none_selected
      by (rewrite Hgb; apply Forall_map, Forall_forall; reflexivity).
    cbn [fst snd]. destruct (groupBoxes (toggleSelection false w)) eqn:El.
    + eexists. split; [reflexivity|]. split; [reflexivity|].
      rewrite Hgb, map_map. split; [reflexivity|].
      rewrite <- Hgb, El. constructor.
    + rewrite <- El, Hgb. eexists. split; [reflexivity|]. cbn [groupBoxes nodes].
      split; [reflexivity|]. split; [now rewrite !map_map|].
      apply Forall_map, Forall_map, Forall_forall. intros; split; reflexivity.
  - intros Hall. unfold rebootHandler.
    rewrite (machineControl_spec net "reboot" _ (wf_toggleSelection true w Hw)).
    assert (Hacc : Forall (fun g => accepts net "reboot" g = true)
                          (groupBoxes (toggleSelection true w))).
    { rewrite Hgb. apply Forall_map, Forall_forall. intros g Hg. unfold accepts.
      change (control_url (box_setChecked true g)) with (control_url g).
      cbn [checked box_setChecked andb]. now apply Hall. }
    destruct (dispatch_plan_all_accept net "reboot" _ Hacc) as [Hk Hp].
    rewrite Hgb, length_map in Hk, Hp. rewrite <- Hgb in Hk, Hp.
    destruct (groupBoxes (toggleSelection true w)) eqn:El.
    + eexists. exists []. split; [reflexivity|]. rewrite El.
      cbn [dispatch_plan fst snd] in Hk, Hp. split; assumption.
    + eexists. eexists. split; [reflexivity|]. cbn [groupBoxes].
      rewrite length_map. split; assumption.
Qed.

Lemma toggleSelection_then_dispatch_witness :
  registry_wf three_nodes /\
  exists w' posted,
    rebootHandler quiet_lan (toggleSelection true three_nodes)
      = Some ((w', posted), None) /\
    List.length (groupBoxes w') = 1%nat /\ List.length posted = 2%nat.
Proof.
  split; [apply wf_run|].
  apply (proj2 (toggleSelection_then_dispatch quiet_lan three_nodes (wf_run _))).
  intros g _. reflexivity.
Defined.
